(** * A2A multi-workflow server: the dispatcher [MultiWorkflowExecutor]

    A shallow embedding of [a2a_multi_workflow_server.py].  Python strings
    are modelled as [string] (code points below 256), the ordered [dict] of
    agents as an association list, and the [async] methods of the executor as
    computations in a small state-and-exception monad over the executor's
    fields and the world it talks to (the FastAgent runtime, the event queue,
    the agents). *)

From Stdlib Require Import String Ascii List Bool Arith Lia Permutation.
From Stdlib Require Import ZArith DecimalString.
Import ListNotations.
Open Scope list_scope.
Open Scope string_scope.

(** ** Python string operations used by the dispatcher *)

Module PyStr.

(** [str.isspace] on one character, for code points below 256:
    TAB..CR, FS..US, SPACE, NEL and NBSP. *)
Definition is_space (c : ascii) : bool :=
  let n := nat_of_ascii c in
  (((9 <=? n) && (n <=? 13)) || ((28 <=? n) && (n <=? 32))
   || (n =? 133) || (n =? 160))%nat.

Definition is_empty (s : string) : bool :=
  match s with EmptyString => true | String _ _ => false end.

Fixpoint lstrip (s : string) : string :=
  match s with
  | EmptyString => EmptyString
  | String c s' => if is_space c then lstrip s' else s
  end.

Fixpoint rstrip (s : string) : string :=
  match s with
  | EmptyString => EmptyString
  | String c s' =>
      let r := rstrip s' in
      if is_space c && is_empty r then EmptyString else String c r
  end.

(** [s.strip()] *)
Definition strip (s : string) : string := rstrip (lstrip s).

(** [s.startswith(p)] *)
Fixpoint startswith (p s : string) : bool :=
  match p, s with
  | EmptyString, _ => true
  | String _ _, EmptyString => false
  | String a p', String b s' => Ascii.eqb a b && startswith p' s'
  end.

(** [s.find(sub)], with [None] for -1 *)
Fixpoint find (sub s : string) : option nat :=
  if startswith sub s then Some 0
  else match s with
       | EmptyString => None
       | String _ s' => option_map S (find sub s')
       end.

(** [sub in s] *)
Definition contains (sub s : string) : bool :=
  match find sub s with Some _ => true | None => false end.

Fixpoint take (n : nat) (s : string) : string :=
  match n, s with
  | S k, String c s' => String c (take k s')
  | _, _ => EmptyString
  end.

Fixpoint drop (n : nat) (s : string) : string :=
  match n, s with
  | S k, String _ s' => drop k s'
  | _, _ => s
  end.

(** [s.split(sep, 1)]: at most one split, at the first occurrence of [sep]. *)
Definition split1 (sep s : string) : list string :=
  match find sep s with
  | None => [s]
  | Some i => [take i s; drop (i + String.length sep) s]
  end.

(** [s.replace(old, new)] for a non-empty [old] (the only call site passes
    the literal "workflow:"): occurrences are found left to right and do not
    overlap; [skip] counts the characters of the current occurrence that are
    still to be dropped. *)
Fixpoint replace_from (old new : string) (skip : nat) (s : string) : string :=
  match s with
  | EmptyString => EmptyString
  | String c s' =>
      match skip with
      | S k => replace_from old new k s'
      | O =>
          if startswith old s
          then new ++ replace_from old new (String.length old - 1) s'
          else String c (replace_from old new 0 s')
      end
  end.

Definition replace (old new s : string) : string := replace_from old new 0 s.

(** Every character of [s] is whitespace ([s] may be empty). *)
Fixpoint blank (s : string) : bool :=
  match s with
  | EmptyString => true
  | String c s' => is_space c && blank s'
  end.

End PyStr.

Import PyStr.

(** ** Results and the world of the executor *)

(** An exception, with its [str(e)] text: an instance of [Exception], or
    one of the exceptions that derive from [BaseException] only
    ([asyncio.CancelledError], [SystemExit], [KeyboardInterrupt]), which
    [except Exception] does not catch. *)
Inductive exn : Type :=
| Exception (text : string)
| BaseException (text : string).

(** [str(e)] *)
Definition str (e : exn) : string :=
  match e with
  | Exception text => text
  | BaseException text => text
  end.

(** A text where an exception is expected stands for [Exception(text)]. *)
Coercion Exception : string >-> exn.

(** The outcome of an awaited call: a value, or an exception raised. *)
Inductive result (A : Type) : Type :=
| Ok (a : A)
| Raise (e : exn).
Arguments Ok {A} a.
Arguments Raise {A} e.

(** An agent as the dispatcher sees it: the name it is registered under and
    its [send] method. *)
Record AgentProtocol : Type := {
  name : string;
  send : string -> result string
}.

(** The [AgentApp] a [fast.run()] context yields; [app_agents] is its
    [_agents] dict, in insertion order. *)
Record AgentApp : Type := {
  runtime_id : nat;
  app_agents : list (string * AgentProtocol)
}.

(** The FastAgent application [fast]: what entering and leaving its k-th
    [run()] context does. *)
Record FastAgent : Type := {
  run_enter : nat -> result (list (string * AgentProtocol));
  run_exit : nat -> result unit
}.

(** The fields of [MultiWorkflowExecutor] ([_agents], [_stack]) together
    with the world: how many [fast.run()] contexts were entered, which were
    left, the texts enqueued on the event queue and the [send] calls made. *)
Record Executor : Type := {
  _agents : option AgentApp;
  _stack : list nat;
  runs : nat;
  closed : list nat;
  events : list string;
  calls : list (string * string)
}.

(** [MultiWorkflowExecutor.__init__] *)
Definition init : Executor :=
  {| _agents := None; _stack := []; runs := 0; closed := [];
     events := []; calls := [] |}.

Definition set_agents (a : option AgentApp) (s : Executor) : Executor :=
  {| _agents := a; _stack := _stack s; runs := runs s; closed := closed s;
     events := events s; calls := calls s |}.

Definition set_stack (st : list nat) (s : Executor) : Executor :=
  {| _agents := _agents s; _stack := st; runs := runs s; closed := closed s;
     events := events s; calls := calls s |}.

Definition set_runs (n : nat) (s : Executor) : Executor :=
  {| _agents := _agents s; _stack := _stack s; runs := n; closed := closed s;
     events := events s; calls := calls s |}.

Definition set_closed (c : list nat) (s : Executor) : Executor :=
  {| _agents := _agents s; _stack := _stack s; runs := runs s; closed := c;
     events := events s; calls := calls s |}.

Definition add_event (text : string) (s : Executor) : Executor :=
  {| _agents := _agents s; _stack := _stack s; runs := runs s;
     closed := closed s; events := (events s ++ [text])%list; calls := calls s |}.

Definition add_call (agent msg : string) (s : Executor) : Executor :=
  {| _agents := _agents s; _stack := _stack s; runs := runs s;
     closed := closed s; events := events s;
     calls := (calls s ++ [(agent, msg)])%list |}.

(** ** The state-and-exception monad of the [async] methods *)

Definition M (A : Type) : Type := Executor -> result A * Executor.

Definition ret {A} (a : A) : M A := fun s => (Ok a, s).

Definition raise {A} (e : string) : M A := fun s => (Raise e, s).

Definition bind {A B} (m : M A) (k : A -> M B) : M B :=
  fun s =>
    match m s with
    | (Ok a, s') => k a s'
    | (Raise e, s') => (Raise e, s')
    end.

(** [try: m except Exception as e: h (str e)]; what [m] did before raising
    stays done, and an exception that is no [Exception] is not caught. *)
Definition try_except {A} (m : M A) (h : string -> M A) : M A :=
  fun s =>
    match m s with
    | (Ok a, s') => (Ok a, s')
    | (Raise (Exception e), s') => h e s'
    | (Raise (BaseException e), s') => (Raise (BaseException e), s')
    end.

Declare Scope exec_scope.
Delimit Scope exec_scope with exec.
Notation "x <- c1 ;; c2" := (bind c1 (fun x => c2))
  (at level 61, c1 at next level, right associativity) : exec_scope.
Notation "c1 ;; c2" := (bind c1 (fun _ => c2))
  (at level 61, right associativity) : exec_scope.
Open Scope exec_scope.

(** ** Python dict and list accesses *)

Fixpoint dict_get (k : string) (d : list (string * AgentProtocol))
  : option AgentProtocol :=
  match d with
  | [] => None
  | (k', v) :: d' => if String.eqb k k' then Some v else dict_get k d'
  end.

(** [k in d] *)
Definition dict_mem (k : string) (d : list (string * AgentProtocol)) : bool :=
  match dict_get k d with Some _ => true | None => false end.

(** [d[k]] *)
Definition dict_item (k : string) (d : list (string * AgentProtocol))
  : M AgentProtocol :=
  match dict_get k d with
  | Some v => ret v
  | None => raise ("'" ++ k ++ "'")
  end.

(** [next(iter(d.values()))]; inside a coroutine the [StopIteration] of an
    empty dict surfaces as a [RuntimeError]. *)
Definition next_iter_values (d : list (string * AgentProtocol))
  : M AgentProtocol :=
  match d with
  | (_, v) :: _ => ret v
  | [] => raise "coroutine raised StopIteration"
  end.

(** [parts[i]] *)
Definition list_item (parts : list string) (i : nat) : M string :=
  match nth_error parts i with
  | Some p => ret p
  | None => raise "list index out of range"
  end.

(** ** [MultiWorkflowExecutor] *)

Section Dispatcher.

Variable fast : FastAgent.

(** [self._stack.enter_async_context(fast.run())]: on success the context
    is pushed on the exit stack. *)
Definition enter_async_context : M AgentApp :=
  fun s =>
    let k := runs s in
    match run_enter fast k with
    | Ok m =>
        (Ok {| runtime_id := k; app_agents := m |},
         set_stack (k :: _stack s) (set_runs (S k) s))
    | Raise e => (Raise e, set_runs (S k) s)
    end.

(** The exit callbacks of an [AsyncExitStack], last entered first; every
    callback runs, and the exception raised last is the one re-raised. *)
Fixpoint exit_all (st : list nat) (pending : option exn) (cl : list nat)
  : option exn * list nat :=
  match st with
  | [] => (pending, cl)
  | k :: rest =>
      exit_all rest
        (match run_exit fast k with Ok _ => pending | Raise e => Some e end)
        (cl ++ [k])%list
  end.

(** [self._stack.aclose()] *)
Definition aclose : M unit :=
  fun s =>
    let '(pending, cl) := exit_all (_stack s) None (closed s) in
    let s' := set_closed cl (set_stack [] s) in
    match pending with
    | None => (Ok tt, s')
    | Some e => (Raise e, s')
    end.

(** [_agents_app]: ensure the FastAgent runtime is running. *)
Definition _agents_app : M AgentApp :=
  fun s =>
    match _agents s with
    | Some app => (Ok app, s)
    | None =>
        (app <- enter_async_context ;;
         fun s' => (Ok app, set_agents (Some app) s')) s
    end.

(** [_workflow]: the requested workflow agent, the router when the name is
    not found.  The default of [dict.get] is evaluated before the call. *)
Definition _workflow (workflow_name : string) : M AgentProtocol :=
  app <- _agents_app ;;
  let agents_map := app_agents app in
  if dict_mem workflow_name agents_map
  then dict_item workflow_name agents_map
  else
    first <- next_iter_values agents_map ;;
    ret (match dict_get "router_workflow" agents_map with
         | Some a => a
         | None => first
         end).

(** [agent.send(user_message)] *)
Definition agent_send (agent : AgentProtocol) (msg : string) : M string :=
  fun s => (send agent msg, add_call (name agent) msg s).

(** [event_queue.enqueue_event(new_agent_text_message(text))] *)
Definition enqueue_event (text : string) : M unit :=
  fun s => (Ok tt, add_event text s).

(** Lines 233-239 of [execute]: the workflow name and the user message
    carried by a stripped, non-empty message. *)
Definition route (message : string) : M (string * string) :=
  if contains "|" message && startswith "workflow:" message
  then
    let parts := split1 "|" message in
    p0 <- list_item parts 0 ;;
    p1 <- list_item parts 1 ;;
    ret (strip (replace "workflow:" "" p0), strip p1)
  else ret ("router_workflow", message).

(** Lines 241-247 of [execute]: the [try] block and its handler. *)
Definition run_workflow (workflow_name user_message : string) : M unit :=
  try_except
    (agent <- _workflow workflow_name ;;
     response <- agent_send agent user_message ;;
     enqueue_event response)
    (fun e =>
       enqueue_event ("Error in " ++ workflow_name ++ ": " ++ e)).

(** [execute] *)
Definition execute (user_input : string) : M unit :=
  let message := strip user_input in
  if is_empty message then ret tt
  else
    r <- route message ;;
    run_workflow (fst r) (snd r).

(** [cancel] *)
Definition cancel : M unit :=
  raise "cancel not fully supported in multi-workflow executor".

(** [shutdown] *)
Definition shutdown : M unit :=
  aclose ;;
  fun s => (Ok tt, set_agents None s).

(** *** Two requests inside [_agents_app] under the asyncio scheduler

    A coroutine runs without interruption up to an [await] that suspends;
    the only [await] of [_agents_app] is the one on
    [enter_async_context(fast.run())], between the test of [self._agents]
    and the assignment to it. *)
Inductive task : Type :=
| AtCheck
| Entering
| Returned (r : result AgentApp).

Definition task_step (t : task) (s : Executor) : task * Executor :=
  match t with
  | AtCheck =>
      match _agents s with
      | Some app => (Returned (Ok app), s)
      | None => (Entering, s)
      end
  | Entering =>
      match enter_async_context s with
      | (Ok app, s') => (Returned (Ok app), set_agents (Some app) s')
      | (Raise e, s') => (Returned (Raise e), s')
      end
  | Returned r => (Returned r, s)
  end.

(** A schedule says which of the two tasks runs its next uninterrupted
    piece: [true] for the first, [false] for the second. *)
Fixpoint interleave (sched : list bool) (t1 t2 : task) (s : Executor)
  : task * task * Executor :=
  match sched with
  | [] => (t1, t2, s)
  | true :: rest =>
      let '(t1', s') := task_step t1 s in interleave rest t1' t2 s'
  | false :: rest =>
      let '(t2', s') := task_step t2 s in interleave rest t1 t2' s'
  end.

End Dispatcher.

(** The routing convention: [message] reads workflow:<name>|<rest>, the
    name ending at the first bar. *)
Definition routed_form (message wf rest : string) : Prop :=
  message = "workflow:" ++ wf ++ "|" ++ rest /\ contains "|" wf = false.

(** ** The rest of the server: [agent_card] and [main] *)

Definition HOST : string := "0.0.0.0".
Definition PORT : Z := 9999%Z.

(** [str(n)] of an [int], as an f-string prints it. *)
Definition str_int (n : Z) : string := NilZero.string_of_int (Z.to_int n).

(** The names given to [@fast.agent], [@fast.chain], [@fast.parallel],
    [@fast.router], [@fast.iterative_planner] and
    [@fast.evaluator_optimizer] in the server, in source order. *)
Definition declared : list string :=
  ["url_summarizer"; "content_writer"; "chaining_workflow";
   "proofreader"; "fact_checker"; "style_enforcer"; "quality_grader";
   "parallel_workflow";
   "code_analyst"; "web_researcher"; "general_assistant"; "router_workflow";
   "task_planner"; "executor"; "reviewer"; "orchestrator_workflow";
   "content_generator"; "quality_evaluator"; "evaluator_optimizer_workflow";
   "simple_assistant"].

(** An [AgentCard]: the fields [main] updates, and [other_fields] for all
    the rest (name, description, skills, ...). *)
Record AgentCard : Type := {
  url : string;
  preferred_transport : string;
  additional_interfaces : list string;
  supports_authenticated_extended_card : bool;
  default_input_modes : list string;
  default_output_modes : list string;
  other_fields : string
}.

(** [agent_card.model_copy(update={...})] of [main], with
    [base_url = f"http://localhost:{PORT}/"]. *)
Definition served_card (card : AgentCard) : AgentCard :=
  {| url := "http://localhost:" ++ str_int PORT ++ "/";
     preferred_transport := "JSONRPC";
     additional_interfaces := [];
     supports_authenticated_extended_card := false;
     default_input_modes := ["text"];
     default_output_modes := ["text"];
     other_fields := other_fields card |}.

(** [try: m finally: f]: [f] always runs; an exception of [f] replaces the
    outcome of [m]. *)
Definition try_finally {A} (m : M A) (f : M unit) : M A :=
  fun s =>
    let '(r, s1) := m s in
    match f s1 with
    | (Ok _, s2) => (r, s2)
    | (Raise e, s2) => (Raise e, s2)
    end.

(** One agent and at most one runtime: the exit stack holds the runtime
    [self._agents] belongs to, and nothing else. *)
Definition single_runtime (s : Executor) : Prop :=
  match _agents s with
  | Some app => _stack s = [runtime_id app]
  | None => _stack s = []
  end.

(** Runtime ids are handed out in order: every runtime entered so far, on
    the exit stack or closed, has an id below [runs]. *)
Definition fresh_ids (s : Executor) : Prop :=
  forall k, In k (_stack s) \/ In k (closed s) -> k < runs s.

Section Server.

Variable fast : FastAgent.
(** [agent.agent_card()] *)
Variable agent_card_of : AgentProtocol -> result AgentCard.
(** [uvicorn_server.serve()], which runs the requests on the executor. *)
Variable serve : AgentCard -> M unit.

(** [agent_card]; [agent_name or "router_workflow"] takes the default for
    [None] and for the empty string. *)
Definition agent_card (agent_name : option string) : M AgentCard :=
  agent <- _workflow fast
             (match agent_name with
              | Some n => if is_empty n then "router_workflow" else n
              | None => "router_workflow"
              end) ;;
  fun s => (agent_card_of agent, s).

(** [main], from the executor it has just created; the [print] calls are
    left out. *)
Definition main : M unit :=
  card <- agent_card None ;;
  try_finally (serve (served_card card)) (shutdown fast).

End Server.

(** ** The client [a2a_client_example.py] *)

Module PyInt.

Definition is_digit (c : ascii) : bool :=
  ((48 <=? nat_of_ascii c) && (nat_of_ascii c <=? 57))%nat.

Definition digit_value (c : ascii) : Z := Z.of_nat (nat_of_ascii c - 48).

(** Digits with single underscores between them; [after_digit] tells
    whether the previous character was a digit. *)
Fixpoint parse_digits (s : string) (acc : Z) (after_digit : bool)
  : option Z :=
  match s with
  | EmptyString => if after_digit then Some acc else None
  | String c s' =>
      if is_digit c then parse_digits s' (10 * acc + digit_value c)%Z true
      else if Ascii.eqb c "_"
           then (if after_digit then parse_digits s' acc false else None)
           else None
  end.

(** [int(s)] in base 10, [None] for [ValueError]: surrounding whitespace,
    an optional sign, then the digits.  The limit that recent interpreters
    put on the number of digits is left out. *)
Definition py_int (s : string) : option Z :=
  match strip s with
  | String "+" r => parse_digits r 0%Z false
  | String "-" r => option_map Z.opp (parse_digits r 0%Z false)
  | t => parse_digits t 0%Z false
  end.

(** [l[i]], [None] for [IndexError]: a negative index counts from the
    end. *)
Definition py_index {A} (l : list A) (i : Z) : option A :=
  let n := Z.of_nat (List.length l) in
  if (0 <=? i)%Z then nth_error l (Z.to_nat i)
  else if (- n <=? i)%Z then nth_error l (Z.to_nat (i + n))
  else None.

End PyInt.

Module Client.
Import PyInt.

Record A2AClient : Type := {
  url : string;
  timeout : Z;
  request_id : Z
}.

(** [A2AClient(url, timeout)] *)
Definition new_client (u : string) (t : Z) : A2AClient :=
  {| url := u; timeout := t; request_id := 1%Z |}.

(** The JSON-RPC payload of [call]; [params] is a dict of strings. *)
Record Payload : Type := {
  jsonrpc : string;
  id : Z;
  method : string;
  params : list (string * string)
}.

(** What the POST of a payload comes to: the JSON object of the response
    (each value given by its [str] text), a timeout, or another
    exception. *)
Inductive Http : Type :=
| Json (body : list (string * string))
| TimedOut
| Failed (e : string).

(** The client and the payloads it has posted. *)
Record World : Type := {
  client : A2AClient;
  sent : list Payload
}.

Fixpoint lookup (k : string) (d : list (string * string)) : option string :=
  match d with
  | [] => None
  | (k', v) :: d' => if String.eqb k k' then Some v else lookup k d'
  end.

Section Transport.

Variable post : Payload -> Http.

(** [call]; its [workflow] parameter is not used. *)
Definition call (meth : string) (prms : option (list (string * string)))
  (w : World) : list (string * string) * World :=
  let c := client w in
  let payload :=
    {| jsonrpc := "2.0"; id := request_id c; method := meth;
       params := match prms with Some p => p | None => [] end |} in
  let c' :=
    {| url := url c; timeout := timeout c;
       request_id := (request_id c + 1)%Z |} in
  let w' := {| client := c'; sent := (sent w ++ [payload])%list |} in
  (match post payload with
   | Json body => body
   | TimedOut =>
       [("error", "Request timeout after " ++ str_int (timeout c) ++ "s")]
   | Failed e => [("error", e)]
   end, w').

(** The text [send_message] puts on the wire. *)
Definition full_message (message workflow : string) : string :=
  "workflow:" ++ workflow ++ "|" ++ message.

(** [send_message] *)
Definition send_message (message workflow : string) (w : World)
  : string * World :=
  let '(result, w') :=
    call "execute" (Some [("message", full_message message workflow)]) w in
  (match lookup "error" result with
   | Some e => "Error: " ++ e
   | None =>
       match lookup "result" result with
       | Some r => r
       | None => "No response"
       end
   end, w').

(** The loop of [main] and of [interactive]: one [send_message] after the
    other, given as (workflow, message) pairs; printing and pacing are left
    out. *)
Fixpoint send_all (requests : list (string * string)) (w : World)
  : list string * World :=
  match requests with
  | [] => ([], w)
  | (workflow, message) :: rest =>
      let '(response, w1) := send_message message workflow w in
      let '(responses, w2) := send_all rest w1 in
      (response :: responses, w2)
  end.

End Transport.

(** The menu of [interactive]. *)
Definition workflows : list string :=
  ["router_workflow"; "chaining_workflow"; "parallel_workflow";
   "orchestrator_workflow"; "evaluator_optimizer_workflow";
   "human_input_workflow"].

(** Lines 143-147 of [interactive]: the workflow chosen by the line typed
    at the menu prompt. *)
Definition select_workflow (typed : string) : string :=
  let choice := if is_empty (strip typed) then "1" else strip typed in
  match py_int choice with
  | None => "router_workflow"
  | Some n =>
      match py_index workflows (n - 1)%Z with
      | Some workflow => workflow
      | None => "router_workflow"
      end
  end.

End Client.

(** ** The pattern executors

    The workflows are declared in the source with [@fast.parallel],
    [@fast.router] and [@fast.evaluator_optimizer]; the algorithms behind
    the decorators live in the [fast_agent] package.  The declarations below
    are the source's, the algorithms follow the specification. *)

(** The AgentRegistry: the [process] capability of every agent id. *)
Definition registry : Type := string -> string -> result string.

Module Parallel.

(** The result of the executor: the fan-in agent's text, or a failure tagged
    with the id of the agent that failed. *)
Inductive outcome : Type :=
| Success (text : string)
| Failure (agent cause : string).

(** [fan_out] and [fan_in] of [parallel_workflow] (source lines 82-86). *)
Definition fan_out : list string :=
  ["proofreader"; "fact_checker"; "style_enforcer"].
Definition fan_in : string := "quality_grader".

Section Executor.

Variable agents : registry.
(** How the labelled outputs are laid out as the fan-in agent's input. *)
Variable render : list (string * string) -> string.

Fixpoint output_of (a : string) (done : list (string * string))
  : option string :=
  match done with
  | [] => None
  | (b, out) :: done' => if String.eqb a b then Some out else output_of a done'
  end.

(** Modelled from the spec: the join barrier of section 4.2, whose code is in
    the [fast_agent] package.  [schedule] is the order in which the fan-out
    invocations complete; each completed output is stored under its agent
    id, and the first failure observed ends the wait. *)
Fixpoint join (x : string) (schedule : list string)
  (done : list (string * string))
  : list (string * string) + string * string :=
  match schedule with
  | [] => inl done
  | a :: rest =>
      match agents a x with
      | Ok out => join x rest ((a, out) :: done)
      | Raise e => inr (a, str e)
      end
  end.

(** Every stored output is the output of the agent it is stored under. *)
Definition consistent (x : string) (done : list (string * string)) : Prop :=
  forall a out, output_of a done = Some out -> agents a x = Ok out.

(** Modelled from the spec: the aggregated input of section 4.2, the outputs
    in fan-out list order, each labelled by its producing agent id. *)
Definition aggregate (fanOut : list string) (done : list (string * string))
  : list (string * string) :=
  flat_map
    (fun a => match output_of a done with
              | Some out => [(a, out)]
              | None => []
              end)
    fanOut.

(** Modelled from the spec: the Parallel executor of section 4.2.  The second
    component lists the inputs the fan-in agent was invoked with. *)
Definition parallel (fanOut : list string) (fanIn : string)
  (schedule : list string) (x : string) : outcome * list string :=
  match join x schedule [] with
  | inr (a, e) => (Failure a e, [])
  | inl done =>
      let input := render (aggregate fanOut done) in
      (match agents fanIn input with
       | Ok text => Success text
       | Raise e => Failure fanIn (str e)
       end, [input])
  end.

Definition parallel_workflow : list string -> string -> outcome * list string :=
  parallel fan_out fan_in.

End Executor.

End Parallel.

Module Router.

(** [agents] of [router_workflow] (source line 115), in declared order. *)
Definition candidates : list string :=
  ["code_analyst"; "web_researcher"; "general_assistant"].

Section Executor.

Variable agents : registry.
(** The classification step, delegated to the classifier model. *)
Variable classify : string -> string.

(** Modelled from the spec: the selection of section 4.3, whose code is in
    the [fast_agent] package: the classifier's answer when it is a
    candidate, else the first candidate in declared order. *)
Definition select (cands : list string) (x : string) : option string :=
  let c := classify x in
  if existsb (String.eqb c) cands then Some c else head cands.

(** Modelled from the spec: the Router executor of section 4.3.  The second
    component lists the candidate invocations made, with their inputs. *)
Definition router (cands : list string) (x : string)
  : result string * list (string * string) :=
  match select cands x with
  | Some a => (agents a x, [(a, x)])
  | None => (Raise "no candidate", [])
  end.

Definition router_workflow : string -> result string * list (string * string) :=
  router candidates.

End Executor.

End Router.

Module EvaluatorOptimizer.

Inductive Rating : Type := POOR | FAIR | GOOD | EXCELLENT.

(** The fixed order POOR < FAIR < GOOD < EXCELLENT. *)
Definition rank (r : Rating) : nat :=
  match r with POOR => 0 | FAIR => 1 | GOOD => 2 | EXCELLENT => 3 end.

Definition meets (minRating r : Rating) : bool :=
  (rank minRating <=? rank r)%nat.

(** [min_rating] and [max_refinements] of [evaluator_optimizer_workflow]
    (source lines 174-175). *)
Definition min_rating : Rating := EXCELLENT.
Definition max_refinements : nat := 3.

(** One agent call made by the loop, with what it returned. *)
Inductive call : Type :=
| Gen (input : string) (r : result string)
| Eval (candidate : string) (r : result (Rating * string)).

Inductive outcome : Type :=
| Success (candidate : string) (rating : Rating)
| Failure (refinement : nat) (role cause : string).

Section Executor.

Variable generator : string -> result string.
Variable evaluator : string -> result (Rating * string).
(** How the evaluator's feedback is folded into the generator's input. *)
Variable fold_feedback : string -> string -> string.

(** Modelled from the spec: the loop of section 4.5, whose code is in the
    [fast_agent] package.  [budget] is the number of refinements left,
    [refinement] the refinement count, [x] the original input and [input]
    the generator's current input. *)
Fixpoint loop (minRating : Rating) (budget refinement : nat)
  (x input : string) : outcome * list call :=
  match generator input with
  | Raise e =>
      (Failure refinement "generator" (str e), [Gen input (Raise e)])
  | Ok cand =>
      match evaluator cand with
      | Raise e =>
          (Failure refinement "evaluator" (str e),
           [Gen input (Ok cand); Eval cand (Raise e)])
      | Ok (r, feedback) =>
          let here := [Gen input (Ok cand); Eval cand (Ok (r, feedback))] in
          if meets minRating r then (Success cand r, here)
          else
            match budget with
            | O => (Success cand r, here)
            | S b =>
                let '(out, tr) :=
                  loop minRating b (S refinement) x (fold_feedback x feedback)
                in (out, (here ++ tr)%list)
            end
      end
  end.

(** Modelled from the spec: the EvaluatorOptimizer executor of section 4.5. *)
Definition evaluator_optimizer (minRating : Rating) (maxRefinements : nat)
  (x : string) : outcome * list call :=
  loop minRating maxRefinements 0 x x.

Definition evaluator_optimizer_workflow : string -> outcome * list call :=
  evaluator_optimizer min_rating max_refinements.

End Executor.

Definition is_gen (c : call) : bool :=
  match c with Gen _ _ => true | Eval _ _ => false end.

Definition is_eval (c : call) : bool :=
  match c with Gen _ _ => false | Eval _ _ => true end.

Definition failed (c : call) : bool :=
  match c with
  | Gen _ (Raise _) | Eval _ (Raise _) => true
  | _ => false
  end.

Definition generator_calls (tr : list call) : nat :=
  List.length (filter is_gen tr).

Definition evaluator_calls (tr : list call) : nat :=
  List.length (filter is_eval tr).

End EvaluatorOptimizer.

(** ** Concrete worlds

    Agents, registries and FastAgent applications on which the definitions
    above can be run. *)

Module Fixtures.

Definition echo (n : string) : AgentProtocol :=
  {| name := n; send := fun msg => Ok (n ++ " got " ++ msg) |}.

Definition failing (n e : string) : AgentProtocol :=
  {| name := n; send := fun _ => Raise e |}.

Definition workflows : list (string * AgentProtocol) :=
  [("chaining_workflow", echo "chaining_workflow");
   ("parallel_workflow", echo "parallel_workflow");
   ("router_workflow", echo "router_workflow");
   ("orchestrator_workflow", echo "orchestrator_workflow");
   ("evaluator_optimizer_workflow", echo "evaluator_optimizer_workflow");
   ("simple_assistant", echo "simple_assistant")].

(** Every [fast.run()] succeeds and yields the six workflows. *)
Definition fast_up : FastAgent :=
  {| run_enter := fun _ => Ok workflows; run_exit := fun _ => Ok tt |}.

(** [fast.run()] cannot be entered. *)
Definition fast_down : FastAgent :=
  {| run_enter := fun _ => Raise "boom"; run_exit := fun _ => Ok tt |}.

(** The router's [send] fails. *)
Definition fast_router_fails : FastAgent :=
  {| run_enter := fun _ =>
       Ok [("chaining_workflow", echo "chaining_workflow");
           ("router_workflow", failing "router_workflow" "boom")];
     run_exit := fun _ => Ok tt |}.

(** A registry without [router_workflow]. *)
Definition fast_no_router : FastAgent :=
  {| run_enter := fun _ =>
       Ok [("simple_assistant", echo "simple_assistant");
           ("chaining_workflow", echo "chaining_workflow")];
     run_exit := fun _ => Ok tt |}.

(** Leaving the runtime context fails. *)
Definition fast_exit_fails : FastAgent :=
  {| run_enter := fun _ => Ok workflows;
     run_exit := fun _ => Raise "exit failed" |}.

(** An agent registry in which every agent answers. *)
Definition reviewers : registry := fun a x => Ok (a ++ " on " ++ x).

(** The same registry with a failing fact checker. *)
Definition fact_checker_down : registry :=
  fun a x =>
    if String.eqb a "fact_checker" then Raise "timeout"
    else Ok (a ++ " on " ++ x).

(** One line per labelled output. *)
Fixpoint labelled (outs : list (string * string)) : string :=
  match outs with
  | [] => ""
  | (a, out) :: rest => "[" ++ a ++ "] " ++ out ++ "; " ++ labelled rest
  end.

(** A classifier that answers with an id that is no candidate. *)
Definition classify_nobody : string -> string := fun _ => "nobody".

Definition draft : string -> result string :=
  fun input => Ok ("draft: " ++ input).

Definition always_fair
  : string -> result (EvaluatorOptimizer.Rating * string) :=
  fun _ => Ok (EvaluatorOptimizer.FAIR, "tighten it").

(** Satisfied once the feedback has been taken up. *)
Definition strict : string -> result (EvaluatorOptimizer.Rating * string) :=
  fun cand =>
    if contains "tighten" cand then Ok (EvaluatorOptimizer.EXCELLENT, "")
    else Ok (EvaluatorOptimizer.FAIR, "tighten it").

Definition fold_append (x feedback : string) : string :=
  x ++ " / " ++ feedback.

(** The request is cancelled while the router's [send] is awaited. *)
Definition fast_cancelled : FastAgent :=
  {| run_enter := fun _ =>
       Ok [("router_workflow",
            {| name := "router_workflow";
               send := fun _ => Raise (BaseException "cancelled") |})];
     run_exit := fun _ => Ok tt |}.

(** Every agent has a card that carries its name. *)
Definition card_of (a : AgentProtocol) : result AgentCard :=
  Ok {| url := "";
        preferred_transport := "HTTP+JSON";
        additional_interfaces := ["grpc"];
        supports_authenticated_extended_card := true;
        default_input_modes := [];
        default_output_modes := [];
        other_fields := name a |}.

(** The runtime comes up without agents. *)
Definition fast_empty : FastAgent :=
  {| run_enter := fun _ => Ok []; run_exit := fun _ => Ok tt |}.

(** A server that handles one request and then fails. *)
Definition serve_hello (card : AgentCard) : M unit :=
  (execute fast_up "hello" ;; raise "server stopped")%exec.

(** The registry of the names the server declares. *)
Definition fast_declared : FastAgent :=
  {| run_enter := fun _ => Ok (map (fun n => (n, echo n)) declared);
     run_exit := fun _ => Ok tt |}.

(** A transport whose responses carry a result. *)
Definition post_ok : Client.Payload -> Client.Http :=
  fun _ => Client.Json [("result", "done")].

(** A tab and a newline. *)
Definition tab_nl : string :=
  String (ascii_of_nat 9) (String (ascii_of_nat 10) "").

End Fixtures.

(** * Properties *)

(** ** Strings *)

Section StringFacts.

Lemma lstrip_blank s : blank s = true -> lstrip s = "".
Proof.
  induction s as [|c s IH]; simpl; [reflexivity|].
  intros H. apply andb_true_iff in H as [Hc Hs].
  rewrite Hc. now apply IH.
Qed.

Lemma strip_blank s : blank s = true -> strip s = "".
Proof.
  intros H. unfold strip. now rewrite lstrip_blank.
Qed.

Lemma startswith_refl_app p s : startswith p (p ++ s) = true.
Proof.
  induction p as [|a p IH]; simpl; [reflexivity|].
  now rewrite Ascii.eqb_refl.
Qed.

Lemma startswith_split p s :
  startswith p s = true -> s = p ++ drop (String.length p) s.
Proof.
  revert s. induction p as [|a p IH]; intros s H; simpl.
  - now destruct s.
  - destruct s as [|b s]; simpl in H; [discriminate|].
    apply andb_true_iff in H as [Hab Hp].
    apply Ascii.eqb_eq in Hab. subst b.
    f_equal. now apply IH.
Qed.

Lemma find_one c s :
  find (String c "") s =
  match s with
  | EmptyString => None
  | String b s' =>
      if Ascii.eqb c b then Some 0 else option_map S (find (String c "") s')
  end.
Proof.
  destruct s as [|b s]; simpl; [reflexivity|].
  destruct (Ascii.eqb c b); reflexivity.
Qed.

Lemma find_one_app c a b :
  find (String c "") a = None ->
  find (String c "") (a ++ String c b) = Some (String.length a).
Proof.
  induction a as [|d a IH]; intros H.
  - simpl. now rewrite Ascii.eqb_refl.
  - rewrite find_one in H. change ((String d a) ++ String c b)
      with (String d (a ++ String c b)).
    rewrite find_one. destruct (Ascii.eqb c d); [discriminate|].
    destruct (find (String c "") a); [discriminate|].
    rewrite IH by reflexivity. reflexivity.
Qed.

Lemma find_one_split c s i :
  find (String c "") s = Some i ->
  s = take i s ++ String c (drop (S i) s)
  /\ find (String c "") (take i s) = None.
Proof.
  revert i. induction s as [|b s IH]; intros i H; rewrite find_one in H.
  - discriminate.
  - destruct (Ascii.eqb c b) eqn:E.
    + injection H as <-. apply Ascii.eqb_eq in E. subst b.
      split; reflexivity.
    + destruct (find (String c "") s) as [j|] eqn:F; [|discriminate].
      injection H as <-. destruct (IH j eq_refl) as [Hs Hn].
      split.
      * simpl. f_equal. exact Hs.
      * change (take (S j) (String b s)) with (String b (take j s)).
        rewrite find_one, E, Hn. reflexivity.
Qed.

Lemma take_app a b : take (String.length a) (a ++ b) = a.
Proof.
  induction a as [|c a IH]; simpl.
  - now destruct b.
  - now rewrite IH.
Qed.

Lemma drop_app a b : drop (String.length a) (a ++ b) = b.
Proof.
  induction a as [|c a IH]; simpl; [now destruct b | exact IH].
Qed.

Lemma drop_app_one a c b :
  drop (String.length a + 1) (a ++ String c b) = b.
Proof.
  induction a as [|d a IH]; simpl; [reflexivity | exact IH].
Qed.

Lemma find_here sub s : startswith sub s = true -> find sub s = Some 0.
Proof.
  intros H. destruct s; cbn [find]; now rewrite H.
Qed.

Lemma find_app sub a b : find sub (a ++ sub ++ b) <> None.
Proof.
  induction a as [|c a IH].
  - change ("" ++ sub ++ b) with (sub ++ b).
    rewrite find_here by apply startswith_refl_app. discriminate.
  - change ((String c a) ++ sub ++ b) with (String c (a ++ sub ++ b)).
    cbn [find]. destruct (startswith sub (String c (a ++ sub ++ b)));
      [discriminate|].
    destruct (find sub (a ++ sub ++ b)); simpl; [discriminate|].
    exfalso. now apply IH.
Qed.

Lemma contains_app sub a b : contains sub (a ++ sub ++ b) = true.
Proof.
  unfold contains. pose proof (find_app sub a b) as H.
  destruct (find sub (a ++ sub ++ b)); [reflexivity | contradiction].
Qed.

Lemma replace_absent old new s :
  find old s = None -> replace_from old new 0 s = s.
Proof.
  induction s as [|c s IH]; intros H; [reflexivity|].
  cbn [find] in H. cbn [replace_from].
  destruct (startswith old (String c s)); [discriminate|].
  destruct (find old s); [discriminate|].
  now rewrite IH.
Qed.

End StringFacts.

(** ** The dispatcher *)

Section DispatcherFacts.

Variable fast : FastAgent.

Lemma route_form (m wf rest : string) (s : Executor) :
  routed_form m wf rest ->
  find "workflow:" wf = None ->
  route m s = (Ok (strip wf, strip rest), s).
Proof.
  intros [-> Hbar] Hwf. unfold contains in Hbar.
  destruct (find "|" wf) eqn:Fwf; [discriminate|].
  assert (Ha : find "|" ("workflow:" ++ wf) = None).
  { simpl. rewrite Fwf. reflexivity. }
  assert (Hf : find "|" ("workflow:" ++ wf ++ "|" ++ rest)
               = Some (String.length ("workflow:" ++ wf))).
  { change ("workflow:" ++ wf ++ "|" ++ rest)
      with (("workflow:" ++ wf) ++ String "|" rest).
    now apply find_one_app. }
  unfold route, contains, split1. rewrite Hf.
  change (startswith "workflow:" ("workflow:" ++ wf ++ "|" ++ rest))
    with true.
  cbn [andb list_item nth_error bind ret].
  change ("workflow:" ++ wf ++ "|" ++ rest)
    with (("workflow:" ++ wf) ++ String "|" rest).
  rewrite take_app.
  change (String.length "|") with 1. rewrite drop_app_one.
  replace (replace "workflow:" "" ("workflow:" ++ wf)) with wf.
  - reflexivity.
  - unfold replace. simpl. now rewrite replace_absent.
Qed.

Lemma routed_form_of_test (m : string) :
  contains "|" m && startswith "workflow:" m = true ->
  exists wf rest, routed_form m wf rest.
Proof.
  intros H. apply andb_true_iff in H as [Hbar Hpre].
  apply startswith_split in Hpre.
  set (t := drop (String.length "workflow:") m) in *.
  rewrite Hpre in Hbar. unfold contains in Hbar. simpl in Hbar.
  destruct (find "|" t) as [i|] eqn:F; [|discriminate].
  destruct (find_one_split _ _ _ F) as [Ht Hn].
  exists (take i t), (drop (S i) t). split.
  - rewrite Hpre at 1. f_equal. exact Ht.
  - unfold contains. now rewrite Hn.
Qed.

Lemma route_default (m : string) (s : Executor) :
  (forall wf rest, ~ routed_form m wf rest) ->
  route m s = (Ok ("router_workflow", m), s).
Proof.
  intros H. unfold route.
  destruct (contains "|" m && startswith "workflow:" m) eqn:E;
    [|reflexivity].
  destruct (routed_form_of_test m E) as (wf & rest & Hf).
  now destruct (H wf rest).
Qed.

(** The indexing of [parts] in [execute] never raises. *)
Lemma route_total (m : string) (s : Executor) :
  exists w u, route m s = (Ok (w, u), s).
Proof.
  unfold route.
  destruct (contains "|" m && startswith "workflow:" m) eqn:E.
  - apply andb_true_iff in E as [Hbar _]. unfold contains in Hbar.
    unfold split1. destruct (find "|" m); [|discriminate].
    cbn. do 2 eexists. reflexivity.
  - cbn. do 2 eexists. reflexivity.
Qed.

Lemma execute_nonblank (raw w u : string) (s : Executor) :
  is_empty (strip raw) = false ->
  route (strip raw) s = (Ok (w, u), s) ->
  execute fast raw s = run_workflow fast w u s.
Proof.
  intros Hne Hr. unfold execute. rewrite Hne. unfold bind.
  now rewrite Hr.
Qed.

Lemma run_workflow_no_exception (w u : string) (s : Executor) (e : string) :
  fst (run_workflow fast w u s) <> Raise (Exception e).
Proof.
  unfold run_workflow, try_except, bind, enqueue_event, agent_send.
  destruct (_workflow fast w s) as [[agent|[t|t]] s1]; try discriminate.
  destruct (send agent u) as [r|[t|t]]; discriminate.
Qed.

(** C10.  An input that is empty or all whitespace makes [execute] return
    at once: nothing is enqueued, no agent is called, the runtime is not
    started; the executor and its world are left exactly as they were. *)
Theorem execute_blank_input (raw : string) (s : Executor) :
  blank raw = true -> execute fast raw s = (Ok tt, s).
Proof.
  intros H. unfold execute. rewrite (strip_blank raw H). reflexivity.
Qed.

(** C1.  A message whose stripped text reads
    workflow:<name>|<rest>, with no further "workflow:" inside <name>, runs
    the [try] block on <name> and <rest>, both stripped; a message whose
    stripped text is non-empty and not of that form runs it on
    "router_workflow" and the stripped text.  The two examples of the
    specification follow. *)
Theorem execute_routing :
  (forall raw wf rest s,
      routed_form (strip raw) wf rest ->
      find "workflow:" wf = None ->
      execute fast raw s = run_workflow fast (strip wf) (strip rest) s)
  /\ (forall raw s,
      is_empty (strip raw) = false ->
      (forall wf rest, ~ routed_form (strip raw) wf rest) ->
      execute fast raw s = run_workflow fast "router_workflow" (strip raw) s)
  /\ (forall s,
      execute fast "workflow:router_workflow|What is 2+2?" s
      = run_workflow fast "router_workflow" "What is 2+2?" s)
  /\ (forall s,
      execute fast "hello" s = run_workflow fast "router_workflow" "hello" s).
Proof.
  split; [|split; [|split]].
  - intros raw wf rest s Hform Hwf.
    apply execute_nonblank.
    + destruct Hform as [-> _]. reflexivity.
    + now apply route_form.
  - intros raw s Hne Hnot.
    apply execute_nonblank; [exact Hne|].
    now apply route_default.
  - intros s. reflexivity.
  - intros s. reflexivity.
Qed.

(** C2.  [execute] never raises an [Exception].  When resolving the
    workflow or the agent's [send] raises an [Exception] with text [e],
    exactly the text "Error in <requested name>: <e>" is enqueued, whichever
    of the two raised; that text contains the requested name and [e].  An
    exception that is no [Exception] is not caught: it leaves [execute] and
    nothing is enqueued. *)
Theorem execute_failure_text :
  (forall raw s e, fst (execute fast raw s) <> Raise (Exception e))
  /\ (forall w u s e s1,
      _workflow fast w s = (Raise (Exception e), s1) ->
      run_workflow fast w u s
      = (Ok tt, add_event ("Error in " ++ w ++ ": " ++ e) s1))
  /\ (forall w u s agent e s1,
      _workflow fast w s = (Ok agent, s1) ->
      send agent u = Raise (Exception e) ->
      run_workflow fast w u s
      = (Ok tt, add_event ("Error in " ++ w ++ ": " ++ e)
                  (add_call (name agent) u s1)))
  /\ (forall w e,
      contains w ("Error in " ++ w ++ ": " ++ e) = true
      /\ contains e ("Error in " ++ w ++ ": " ++ e) = true)
  /\ (forall w u s e s1,
      _workflow fast w s = (Raise (BaseException e), s1) ->
      run_workflow fast w u s = (Raise (BaseException e), s1))
  /\ (forall w u s agent e s1,
      _workflow fast w s = (Ok agent, s1) ->
      send agent u = Raise (BaseException e) ->
      run_workflow fast w u s
      = (Raise (BaseException e), add_call (name agent) u s1)).
Proof.
  split; [|split; [|split; [|split; [|split]]]].
  - intros raw s e. unfold execute.
    destruct (is_empty (strip raw)); [discriminate|].
    destruct (route_total (strip raw) s) as (w & u & Hr).
    unfold bind. rewrite Hr. apply run_workflow_no_exception.
  - intros w u s e s1 Hw.
    unfold run_workflow, try_except, bind. now rewrite Hw.
  - intros w u s agent e s1 Hw Hsend.
    unfold run_workflow, try_except, bind, agent_send. rewrite Hw, Hsend.
    reflexivity.
  - intros w e. split.
    + apply (contains_app w "Error in " (": " ++ e)).
    + replace ("Error in " ++ w ++ ": " ++ e)
        with (("Error in " ++ w ++ ": ") ++ e ++ "").
      * apply contains_app.
      * clear. simpl. do 9 f_equal.
        induction w as [|c w IH]; simpl.
        -- do 2 f_equal. induction e as [|c e IH]; simpl; congruence.
        -- now rewrite IH.
  - intros w u s e s1 Hw.
    unfold run_workflow, try_except, bind. now rewrite Hw.
  - intros w u s agent e s1 Hw Hsend.
    unfold run_workflow, try_except, bind, agent_send. rewrite Hw, Hsend.
    reflexivity.
Qed.

(** C3.  Once the runtime is up with a non-empty registry, [_workflow]
    returns an agent for every name; for a name that is not registered it
    is the agent under "router_workflow" when there is one, else the first
    agent of the registry. *)
Theorem workflow_fallback (s s1 : Executor) (app : AgentApp) :
  _agents_app fast s = (Ok app, s1) ->
  app_agents app <> [] ->
  (forall w, exists a, _workflow fast w s = (Ok a, s1))
  /\ (forall w,
      dict_get w (app_agents app) = None ->
      exists k first rest,
        app_agents app = (k, first) :: rest
        /\ _workflow fast w s
           = (Ok match dict_get "router_workflow" (app_agents app) with
                 | Some a => a
                 | None => first
                 end, s1)).
Proof.
  intros Happ Hne.
  destruct (app_agents app) as [|[k first] rest] eqn:Hmap; [congruence|].
  split.
  - intros w. unfold _workflow, bind. rewrite Happ, Hmap.
    unfold dict_mem, dict_item.
    destruct (dict_get w ((k, first) :: rest)); cbn; eexists; reflexivity.
  - intros w Hw. exists k, first, rest. split; [reflexivity|].
    unfold _workflow, bind. rewrite Happ, Hmap. unfold dict_mem.
    rewrite Hw. reflexivity.
Qed.

Lemma exit_all_spec (st : list nat) : forall pending cl,
  snd (exit_all fast st pending cl) = (cl ++ st)%list
  /\ (forallb (fun k => match run_exit fast k with
                        | Ok _ => true
                        | Raise _ => false
                        end) st = true ->
      fst (exit_all fast st pending cl) = pending)
  /\ (forallb (fun k => match run_exit fast k with
                        | Ok _ => true
                        | Raise _ => false
                        end) st = false ->
      exists e, fst (exit_all fast st pending cl) = Some e).
Proof.
  induction st as [|k rest IH]; intros pending cl; cbn [exit_all forallb].
  - rewrite app_nil_r. repeat split; auto. discriminate.
  - destruct (IH (match run_exit fast k with
                  | Ok _ => pending
                  | Raise e => Some e
                  end) (cl ++ [k])%list) as (Hcl & Hok & Hbad).
    rewrite Hcl, <- app_assoc. split; [reflexivity|].
    destruct (run_exit fast k) as [u|e]; cbn [andb].
    + split; assumption.
    + split; [discriminate|]. intros _.
      destruct (forallb _ rest) eqn:E.
      * exists e. now apply Hok.
      * now apply Hbad.
Qed.

(** What [shutdown] does to the exit stack, the closed runtimes and the
    agent reference. *)
Lemma shutdown_outcome (s : Executor) :
  let s1 := snd (shutdown fast s) in
  _stack s1 = []
  /\ closed s1 = (closed s ++ _stack s)%list
  /\ events s1 = events s /\ calls s1 = calls s /\ runs s1 = runs s
  /\ if forallb (fun k => match run_exit fast k with
                          | Ok _ => true
                          | Raise _ => false
                          end) (_stack s)
     then fst (shutdown fast s) = Ok tt /\ _agents s1 = None
     else (exists e, fst (shutdown fast s) = Raise e)
          /\ _agents s1 = _agents s.
Proof.
  unfold shutdown, bind, aclose.
  destruct (exit_all_spec (_stack s) None (closed s)) as (Hcl & Hok & Hbad).
  destruct (exit_all fast (_stack s) None (closed s)) as [pending cl].
  cbn [fst snd] in *. subst cl.
  destruct (forallb _ (_stack s)).
  - rewrite (Hok eq_refl). cbn. repeat split.
  - destruct (Hbad eq_refl) as [e ->]. cbn. repeat split. now exists e.
Qed.


(** C9.  [shutdown] is idempotent once it has returned: a call that
    returns has left every runtime of the exit stack, emptied the stack and
    cleared the agent reference, and a further call returns and changes
    nothing.  A call made after another one never raises, whether or not
    the first one did. *)
Theorem shutdown_idempotent (s : Executor) :
  fst (shutdown fast (snd (shutdown fast s))) = Ok tt
  /\ (fst (shutdown fast s) = Ok tt ->
      let s1 := snd (shutdown fast s) in
      closed s1 = (closed s ++ _stack s)%list
      /\ _stack s1 = []
      /\ _agents s1 = None
      /\ shutdown fast s1 = (Ok tt, s1)).
Proof.
  split.
  - destruct (shutdown_outcome (snd (shutdown fast s)))
      as (_ & _ & _ & _ & _ & H2).
    rewrite (proj1 (shutdown_outcome s)) in H2. exact (proj1 H2).
  - intros Hok. cbv zeta.
    destruct (shutdown_outcome s) as (Hst & Hcl & _ & _ & _ & Hres).
    cbv zeta in *.
    destruct (forallb _ (_stack s));
      [|destruct Hres as [[e He] _]; congruence].
    destruct Hres as [_ Ha].
    split; [exact Hcl|]. split; [exact Hst|]. split; [exact Ha|].
    set (s1 := snd (shutdown fast s)) in *. clearbody s1.
    destruct s1 as [ag st rn cl ev ca]. cbn in Hst, Ha. subst ag st.
    unfold shutdown, bind, aclose. cbn. reflexivity.
Qed.

(** C8.  Requests that do not overlap share one runtime: if
    [_agents_app] returns [app], a first request followed by a second one
    both obtain [app] and the second changes nothing; when no runtime
    existed, the first request entered exactly one [fast.run()] context;
    every later call returns the same [app]. *)
Theorem agents_app_sequential (s s1 : Executor) (app : AgentApp) :
  _agents_app fast s = (Ok app, s1) ->
  interleave fast [true; true; false; false] AtCheck AtCheck s
  = (Returned (Ok app), Returned (Ok app), s1)
  /\ (_agents s = None ->
      _stack s1 = runs s :: _stack s /\ runs s1 = S (runs s))
  /\ _agents_app fast s1 = (Ok app, s1).
Proof.
  unfold _agents_app, bind. intros H.
  destruct (_agents s) as [a|] eqn:Ha.
  - injection H as <- <-. cbn. rewrite !Ha. cbn. rewrite !Ha. cbn.
    split; [reflexivity | split; [discriminate | reflexivity]].
  - destruct (enter_async_context fast s) as [[a|e] s'] eqn:He;
      [|discriminate].
    injection H as <- <-. cbn. rewrite Ha. cbn. rewrite He. cbn.
    split; [reflexivity | split; [|reflexivity]].
    intros _. unfold enter_async_context in He.
    destruct (run_enter fast (runs s)); [|discriminate].
    injection He as _ <-. split; reflexivity.
Qed.

End DispatcherFacts.

(** C4.  In every state [cancel] raises the same generic
    exception to its caller; nothing is enqueued and nothing is changed. *)
Theorem cancel_raises (s : Executor) :
  cancel s
  = (Raise "cancel not fully supported in multi-workflow executor", s).
Proof. reflexivity. Qed.

(** C4: nothing reaches the event queue when [cancel] is called on a fresh
    executor; the call ends in an exception instead. *)
Lemma cancel_counterexample :
  ~ exists text, cancel init = (Ok tt, add_event text init).
Proof.
  intros [text H]. discriminate H.
Qed.

(** ** The dispatcher on concrete worlds *)

Import Fixtures.

Lemma execute_blank_input_witness :
  blank ("  " ++ tab_nl) = true
  /\ execute fast_up ("  " ++ tab_nl) init = (Ok tt, init).
Proof.
  split.
  - reflexivity.
  - apply (execute_blank_input fast_up). reflexivity.
Defined.

Lemma execute_routing_witness :
  execute fast_up " workflow: chaining_workflow |  summarise this " init
  = run_workflow fast_up "chaining_workflow" "summarise this" init
  /\ execute fast_up " hello " init
     = run_workflow fast_up "router_workflow" "hello" init.
Proof.
  split.
  - apply (proj1 (execute_routing fast_up)
             " workflow: chaining_workflow |  summarise this "
             " chaining_workflow " "  summarise this" init).
    + split; reflexivity.
    + reflexivity.
  - apply (proj1 (proj2 (execute_routing fast_up)) " hello " init).
    + reflexivity.
    + intros wf rest [H _]. cbn in H. discriminate H.
Defined.

(** C1: the empty message is not of the form workflow:<name>|<rest>, yet
    [execute] does not pass it to "router_workflow": it returns before the
    [try] block. *)
Lemma execute_routing_counterexample :
  ~ (forall (fast : FastAgent) (raw : string) (s : Executor),
        (forall wf rest, ~ routed_form raw wf rest) ->
        execute fast raw s = run_workflow fast "router_workflow" raw s).
Proof.
  intros H. specialize (H fast_up "" init).
  assert (Hnot : forall wf rest, ~ routed_form "" wf rest).
  { intros wf rest [Hm _]. discriminate Hm. }
  specialize (H Hnot). vm_compute in H. discriminate H.
Qed.

Lemma execute_failure_text_witness :
  run_workflow fast_down "router_workflow" "hi" init
  = (Ok tt, add_event "Error in router_workflow: boom"
              (set_runs 1 init))
  /\ events (snd (run_workflow fast_router_fails "router_workflow" "hi" init))
     = ["Error in router_workflow: boom"]
  /\ run_workflow fast_cancelled "router_workflow" "hi" init
     = (Raise (BaseException "cancelled"),
        add_call "router_workflow" "hi"
          (snd (_workflow fast_cancelled "router_workflow" init))).
Proof.
  split; [|split].
  - apply (proj1 (proj2 (execute_failure_text fast_down))
             "router_workflow" "hi" init "boom" (set_runs 1 init)).
    reflexivity.
  - rewrite (proj1 (proj2 (proj2 (execute_failure_text fast_router_fails)))
               "router_workflow" "hi" init
               (failing "router_workflow" "boom") "boom"
               (snd (_workflow fast_router_fails "router_workflow" init))).
    + reflexivity.
    + reflexivity.
    + reflexivity.
  - apply (proj2 (proj2 (proj2 (proj2 (proj2
             (execute_failure_text fast_cancelled)))))
             "router_workflow" "hi" init
             {| name := "router_workflow";
                send := fun _ => Raise (BaseException "cancelled") |}
             "cancelled"
             (snd (_workflow fast_cancelled "router_workflow" init))).
    + reflexivity.
    + reflexivity.
Defined.

(** C2: the request names an unknown workflow and is resolved to
    "router_workflow", whose [send] fails; the text enqueued names the
    requested workflow, not the resolved one.  A failure to start the
    runtime and a failure of [send] give the same text.  A cancellation
    raised by [send] is not caught: it leaves [execute] and nothing is
    enqueued. *)
Lemma execute_failure_text_counterexample :
  match _workflow fast_router_fails "unknown_wf" init with
  | (Ok agent, _) => name agent = "router_workflow"
  | (Raise _, _) => False
  end
  /\ events (snd (execute fast_router_fails "workflow:unknown_wf|hi" init))
     = ["Error in unknown_wf: boom"]
  /\ contains "router_workflow" "Error in unknown_wf: boom" = false
  /\ events (snd (execute fast_down "hi" init))
     = events (snd (execute fast_router_fails "hi" init))
  /\ fst (execute fast_cancelled "hi" init)
     = Raise (BaseException "cancelled")
  /\ events (snd (execute fast_cancelled "hi" init)) = [].
Proof.
  repeat split; reflexivity.
Qed.

Lemma shutdown_idempotent_witness :
  shutdown fast_up (snd (shutdown fast_up (snd (_agents_app fast_up init))))
  = (Ok tt, snd (shutdown fast_up (snd (_agents_app fast_up init))))
  /\ closed (snd (shutdown fast_up (snd (_agents_app fast_up init)))) = [0].
Proof.
  destruct (proj2 (shutdown_idempotent fast_up
                     (snd (_agents_app fast_up init))) eq_refl)
    as (Hclosed & _ & _ & Hsame).
  split; [exact Hsame | exact Hclosed].
Defined.

(** C9: when leaving the runtime raises, the first [shutdown] raises with
    the agent reference still set and the second one clears it: two calls
    do not leave the executor as one call does. *)
Lemma shutdown_idempotent_counterexample :
  ~ (forall (fast : FastAgent) (s : Executor),
        snd (shutdown fast (snd (shutdown fast s)))
        = snd (shutdown fast s)).
Proof.
  intros H.
  specialize (H fast_exit_fails (snd (_agents_app fast_exit_fails init))).
  apply (f_equal _agents) in H. vm_compute in H. discriminate H.
Qed.

Lemma workflow_fallback_witness :
  exists a,
    _workflow fast_no_router "unknown_wf" init
    = (Ok a, snd (_agents_app fast_no_router init))
    /\ name a = "simple_assistant".
Proof.
  destruct (proj2 (workflow_fallback fast_no_router init
                     (snd (_agents_app fast_no_router init))
                     {| runtime_id := 0;
                        app_agents :=
                          [("simple_assistant", echo "simple_assistant");
                           ("chaining_workflow", echo "chaining_workflow")] |}
                     eq_refl ltac:(discriminate))
             "unknown_wf" eq_refl) as (k & first & rest & Hmap & Hw).
  injection Hmap as <- <- <-.
  eexists. split; [exact Hw | reflexivity].
Defined.

Lemma agents_app_sequential_witness :
  interleave fast_up [true; true; false; false] AtCheck AtCheck init
  = (Returned (Ok {| runtime_id := 0; app_agents := workflows |}),
     Returned (Ok {| runtime_id := 0; app_agents := workflows |}),
     snd (_agents_app fast_up init)).
Proof.
  apply (proj1 (agents_app_sequential fast_up init
                  (snd (_agents_app fast_up init))
                  {| runtime_id := 0; app_agents := workflows |} eq_refl)).
Defined.

(** C8: two first requests that both test [self._agents] before either has
    assigned it each enter a [fast.run()] context: two runtimes are on the
    exit stack and the two requests hold different ones. *)
Lemma agents_app_race :
  interleave fast_up [true; false; true; false] AtCheck AtCheck init
  = (Returned (Ok {| runtime_id := 0; app_agents := workflows |}),
     Returned (Ok {| runtime_id := 1; app_agents := workflows |}),
     {| _agents := Some {| runtime_id := 1; app_agents := workflows |};
        _stack := [1; 0]; runs := 2; closed := [];
        events := []; calls := [] |}).
Proof. reflexivity. Qed.

(** The message is stripped before it is routed. *)
Example execute_strips :
  calls (snd (execute fast_up "  hello  " init)) = [("router_workflow", "hello")]
  /\ events (snd (execute fast_up "  hello  " init))
     = ["router_workflow got hello"].
Proof. split; reflexivity. Qed.

(** [replace] removes every "workflow:" of the part before the bar. *)
Example route_inner_prefix :
  route "workflow:workflow:chaining_workflow|hi" init
  = (Ok ("chaining_workflow", "hi"), init).
Proof. reflexivity. Qed.

(** An unknown name falls back to the router. *)
Example execute_unknown_workflow :
  calls (snd (execute fast_up "workflow:unknown_wf|hi" init))
  = [("router_workflow", "hi")].
Proof. reflexivity. Qed.

(** After a [shutdown] whose exit callback raised, the agent reference is
    still set; the next [shutdown] clears it. *)
Example shutdown_after_failed_exit :
  let s := snd (_agents_app fast_exit_fails init) in
  shutdown fast_exit_fails s
  = (Raise "exit failed", set_closed [0] (set_stack [] s))
  /\ shutdown fast_exit_fails (snd (shutdown fast_exit_fails s))
     = (Ok tt, set_agents None (set_closed [0] (set_stack [] s))).
Proof. split; reflexivity. Qed.

(** ** The Parallel executor *)

Module ParallelFacts.
Import Parallel.

Section Facts.

Variable agents : registry.
Variable render : list (string * string) -> string.
Variable x : string.

Lemma consistent_cons a out done :
  agents a x = Ok out ->
  consistent agents x done ->
  consistent agents x ((a, out) :: done).
Proof.
  intros Ha Hc b o. simpl.
  destruct (String.eqb b a) eqn:E.
  - apply String.eqb_eq in E. subst b. now intros [= <-].
  - apply Hc.
Qed.

Lemma join_done schedule : forall done done',
  join agents x schedule done = inl done' ->
  consistent agents x done ->
  consistent agents x done'
  /\ (forall a, In a schedule -> output_of a done' <> None)
  /\ (forall a, output_of a done <> None -> output_of a done' <> None).
Proof.
  induction schedule as [|a rest IH]; intros done done' H Hc; simpl in H.
  - injection H as <-. split; [exact Hc | split; [intros a [] | auto]].
  - destruct (agents a x) as [out|e] eqn:Ha; [|discriminate].
    destruct (IH _ _ H (consistent_cons _ _ _ Ha Hc)) as (Hc' & Hin & Hkeep).
    split; [exact Hc'|]. split.
    + intros b [<- | Hb]; [|now apply Hin].
      apply Hkeep. simpl. rewrite String.eqb_refl. discriminate.
    + intros b Hb. apply Hkeep. simpl.
      destruct (String.eqb b a); [discriminate | exact Hb].
Qed.

Lemma join_total schedule : forall done,
  (forall a, In a schedule -> exists out, agents a x = Ok out) ->
  exists done', join agents x schedule done = inl done'.
Proof.
  induction schedule as [|a rest IH]; intros done Hok; simpl.
  - eexists. reflexivity.
  - destruct (Hok a (or_introl eq_refl)) as [out ->].
    apply IH. intros b Hb. apply Hok. now right.
Qed.

Lemma join_failure schedule : forall done a cause,
  join agents x schedule done = inr (a, cause) ->
  In a schedule /\ exists e, agents a x = Raise e /\ str e = cause.
Proof.
  induction schedule as [|b rest IH]; intros done a cause H; simpl in H.
  - discriminate.
  - destruct (agents b x) as [out|e'] eqn:Hb.
    + destruct (IH _ _ _ H) as [Hin Ha]. split; [now right | exact Ha].
    + injection H as <- <-. split; [now left | now exists e'].
Qed.

Lemma join_fail_fast schedule : forall done,
  (exists a e, In a schedule /\ agents a x = Raise e) ->
  exists a e, join agents x schedule done = inr (a, e).
Proof.
  induction schedule as [|b rest IH]; intros done (a & e & Hin & Ha).
  - destruct Hin.
  - simpl. destruct (agents b x) as [out|e'] eqn:Hb.
    + apply IH. destruct Hin as [<- | Hin]; [congruence|].
      exists a, e. now split.
    + exists b, (str e'). reflexivity.
Qed.

Lemma output_of_done done a out :
  consistent agents x done -> output_of a done <> None -> agents a x = Ok out ->
  output_of a done = Some out.
Proof.
  intros Hc Hn Ha. destruct (output_of a done) as [o|] eqn:E; [|congruence].
  apply Hc in E. congruence.
Qed.

(** C5.  Whatever the order in which the three fan-out invocations of
    [parallel_workflow] complete: when all succeed, the fan-in agent is
    invoked once, on the outputs of proofreader, fact_checker and
    style_enforcer in that order; when one fails, the fan-in agent is not
    invoked and the result is the failure of a fan-out agent, tagged with
    its id. *)
Theorem parallel_workflow_order (schedule : list string) :
  Permutation schedule fan_out ->
  (forall p f st,
      agents "proofreader" x = Ok p ->
      agents "fact_checker" x = Ok f ->
      agents "style_enforcer" x = Ok st ->
      let input :=
        render [("proofreader", p); ("fact_checker", f);
                ("style_enforcer", st)] in
      parallel_workflow agents render schedule x
      = (match agents fan_in input with
         | Ok text => Success text
         | Raise e => Failure fan_in (str e)
         end, [input]))
  /\ ((exists a e, In a fan_out /\ agents a x = Raise e) ->
      exists a e,
        In a fan_out /\ agents a x = Raise e
        /\ parallel_workflow agents render schedule x
           = (Failure a (str e), [])).
Proof.
  intros Hperm. split.
  - intros p f st Hp Hf Hst input. subst input.
    unfold parallel_workflow, parallel.
    destruct (join_total schedule []) as [done Hj].
    { intros a Ha. apply (Permutation_in _ Hperm) in Ha.
      destruct Ha as [<- | [<- | [<- | []]]]; eauto. }
    rewrite Hj.
    destruct (join_done schedule [] done Hj) as (Hc & Hin & _).
    { intros a out H. discriminate H. }
    assert (Hall : forall a, In a fan_out -> output_of a done <> None).
    { intros a Ha. apply Hin.
      apply (Permutation_in _ (Permutation_sym Hperm)). exact Ha. }
    unfold aggregate, fan_out. cbn [flat_map].
    rewrite (output_of_done done "proofreader" p Hc
               (Hall _ (or_introl eq_refl)) Hp).
    rewrite (output_of_done done "fact_checker" f Hc
               (Hall _ (or_intror (or_introl eq_refl))) Hf).
    rewrite (output_of_done done "style_enforcer" st Hc
               (Hall _ (or_intror (or_intror (or_introl eq_refl)))) Hst).
    reflexivity.
  - intros (a & e & Ha & He).
    destruct (join_fail_fast schedule []) as (b & cause & Hj).
    { exists a, e. split; [|exact He].
      apply (Permutation_in _ (Permutation_sym Hperm)). exact Ha. }
    destruct (join_failure _ _ _ _ Hj) as (Hb & e' & He' & <-).
    exists b, e'. split; [apply (Permutation_in _ Hperm); exact Hb|].
    split; [exact He'|].
    unfold parallel_workflow, parallel. now rewrite Hj.
Qed.

End Facts.

End ParallelFacts.

(** ** The Router executor *)

Module RouterFacts.
Import Router.

Section Facts.

Variable agents : registry.
Variable classify : string -> string.

Lemma existsb_eqb_In (c : string) (l : list string) :
  existsb (String.eqb c) l = true <-> In c l.
Proof.
  rewrite existsb_exists. split.
  - intros (b & Hb & E). apply String.eqb_eq in E. now subst b.
  - intros H. exists c. split; [exact H | apply String.eqb_refl].
Qed.

Lemma select_spec (first : string) (rest : list string) (x : string) :
  exists a,
    select classify (first :: rest) x = Some a
    /\ In a (first :: rest)
    /\ (In (classify x) (first :: rest) -> a = classify x)
    /\ (~ In (classify x) (first :: rest) -> a = first).
Proof.
  unfold select.
  destruct (existsb (String.eqb (classify x)) (first :: rest)) eqn:E.
  - apply existsb_eqb_In in E. exists (classify x).
    split; [reflexivity|]. split; [exact E|]. split; [reflexivity|].
    intros H. now destruct H.
  - exists first.
    split; [reflexivity|]. split; [now left|]. split; [|reflexivity].
    intros H. apply existsb_eqb_In in H. congruence.
Qed.

(** C6.  [router_workflow] invokes exactly one agent, a declared candidate,
    on the original input, and returns what it returns; the agent is the
    classifier's answer when that is a candidate and "code_analyst", the
    first declared candidate, when it is not. *)
Theorem router_workflow_one_call (x : string) :
  exists a,
    router_workflow agents classify x = (agents a x, [(a, x)])
    /\ In a candidates
    /\ (In (classify x) candidates -> a = classify x)
    /\ (~ In (classify x) candidates -> a = "code_analyst").
Proof.
  destruct (select_spec "code_analyst"
              ["web_researcher"; "general_assistant"] x)
    as (a & Hsel & Hin & Hyes & Hno).
  exists a. unfold router_workflow, router, candidates.
  rewrite Hsel. repeat split; assumption.
Qed.

End Facts.

End RouterFacts.

(** ** The EvaluatorOptimizer executor *)

Module EvaluatorOptimizerFacts.
Import EvaluatorOptimizer.

Section Facts.

Variable generator : string -> result string.
Variable evaluator : string -> result (Rating * string).
Variable fold_feedback : string -> string -> string.
Variable minRating : Rating.
Variable x : string.

Local Abbreviation run :=
  (loop generator evaluator fold_feedback minRating).

Lemma loop_step (budget k : nat) (input : string) :
  run budget k x input =
  match generator input with
  | Raise e => (Failure k "generator" (str e), [Gen input (Raise e)])
  | Ok cand =>
      match evaluator cand with
      | Raise e =>
          (Failure k "evaluator" (str e),
           [Gen input (Ok cand); Eval cand (Raise e)])
      | Ok (r, feedback) =>
          let here := [Gen input (Ok cand); Eval cand (Ok (r, feedback))] in
          if meets minRating r then (Success cand r, here)
          else
            match budget with
            | O => (Success cand r, here)
            | S b =>
                (fst (run b (S k) x (fold_feedback x feedback)),
                 (here ++ snd (run b (S k) x (fold_feedback x feedback)))%list)
            end
      end
  end.
Proof.
  destruct budget; cbn [loop];
    destruct (generator input) as [cand|e]; try reflexivity;
    destruct (evaluator cand) as [[r fb]|e]; try reflexivity.
  destruct (meets minRating r); [reflexivity|].
  destruct (run budget (S k) x (fold_feedback x fb)). reflexivity.
Qed.

Lemma loop_calls (budget : nat) : forall k input,
  generator_calls (snd (run budget k x input)) <= budget + 1
  /\ evaluator_calls (snd (run budget k x input)) <= budget + 1.
Proof.
  unfold generator_calls, evaluator_calls.
  induction budget as [|b IH]; intros k input; rewrite loop_step;
    destruct (generator input) as [cand|e]; cbn; try lia;
    destruct (evaluator cand) as [[r fb]|e]; cbn; try lia;
    destruct (meets minRating r); cbn; try lia.
  specialize (IH (S k) (fold_feedback x fb)). lia.
Qed.

Lemma split_after_gen (g e0 : call) (tr pre post : list call) (ev : call) :
  (g :: e0 :: tr)%list = (pre ++ ev :: post)%list ->
  is_gen g = true -> is_eval ev = true ->
  (e0 = ev /\ post = tr)
  \/ (exists pre', tr = (pre' ++ ev :: post)%list).
Proof.
  intros H Hg Hev. destruct pre as [|p1 [|p2 pre]]; cbn [app] in H.
  - injection H as -> _. destruct ev; discriminate.
  - injection H as _ -> ->. now left.
  - injection H as _ _ ->. right. now exists pre.
Qed.

Lemma loop_first_pass (budget : nat) : forall k input pre c r fb post,
  snd (run budget k x input) = (pre ++ Eval c (Ok (r, fb)) :: post)%list ->
  meets minRating r = true ->
  post = [] /\ fst (run budget k x input) = Success c r.
Proof.
  induction budget as [|b IH]; intros k input pre c r fb post;
    rewrite loop_step;
    (destruct (generator input) as [cand|e];
     [destruct (evaluator cand) as [[r0 fb0]|e];
      [destruct (meets minRating r0) eqn:Hm|]|]);
    cbn [fst snd app]; intros H Hpass.
  all: try (destruct pre as [|p1 [|]]; discriminate H).
  all: try (destruct (split_after_gen _ _ _ _ _ _ H eq_refl eq_refl)
              as [[E Hpost] | [pre' E]];
            [ inversion E; subst; clear E
            | destruct pre'; discriminate E ]).
  all: try (split; reflexivity).
  all: try congruence.
  - destruct (split_after_gen _ _ _ _ _ _ H eq_refl eq_refl)
      as [[E Hpost] | [pre' E]].
    + inversion E; subst. congruence.
    + now apply (IH _ _ _ _ _ _ _ E).
Qed.

Lemma loop_no_failure (budget : nat) : forall k input,
  forallb (fun c => negb (failed c)) (snd (run budget k x input)) = true ->
  exists pre i c r fb,
    snd (run budget k x input)
    = (pre ++ [Gen i (Ok c); Eval c (Ok (r, fb))])%list
    /\ fst (run budget k x input) = Success c r
    /\ (meets minRating r = false ->
        generator_calls (snd (run budget k x input)) = budget + 1
        /\ evaluator_calls (snd (run budget k x input)) = budget + 1).
Proof.
  induction budget as [|b IH]; intros k input; rewrite loop_step;
    destruct (generator input) as [cand|e]; cbn; try discriminate;
    destruct (evaluator cand) as [[r fb]|e]; cbn; try discriminate;
    destruct (meets minRating r) eqn:Hm; cbn; intros H.
  1-3: exists [], input, cand, r, fb;
       (split; [reflexivity | split; [reflexivity|]]);
       intros Hr; try congruence; split; reflexivity.
  destruct (IH (S k) (fold_feedback x fb) H)
    as (pre & i & c & r' & fb' & Htr & Hout & Hcount).
  exists (Gen input (Ok cand) :: Eval cand (Ok (r, fb)) :: pre), i, c, r', fb'.
  rewrite Htr, Hout. split; [reflexivity | split; [reflexivity|]].
  intros Hr. rewrite <- Htr. unfold generator_calls, evaluator_calls in *.
  destruct (Hcount Hr) as [Hg He]. cbn. lia.
Qed.

(** C7.  With [maxRefinements = n] the executor makes at most n+1 generator
    calls and at most n+1 evaluator calls; an evaluation whose rating
    reaches [minRating] is the last call made and its candidate is returned;
    when no agent fails the result is a success carrying the last candidate
    generated and its rating, and if that rating is below [minRating] the
    budget of n+1 generations and n+1 evaluations was used up. *)
Theorem evaluator_optimizer_calls (n : nat) :
  let out :=
    fst (evaluator_optimizer generator evaluator fold_feedback minRating n x) in
  let tr :=
    snd (evaluator_optimizer generator evaluator fold_feedback minRating n x) in
  generator_calls tr <= n + 1
  /\ evaluator_calls tr <= n + 1
  /\ (forall pre c r fb post,
      tr = (pre ++ Eval c (Ok (r, fb)) :: post)%list ->
      meets minRating r = true ->
      post = [] /\ out = Success c r)
  /\ (forallb (fun c => negb (failed c)) tr = true ->
      exists pre i c r fb,
        tr = (pre ++ [Gen i (Ok c); Eval c (Ok (r, fb))])%list
        /\ out = Success c r
        /\ (meets minRating r = false ->
            generator_calls tr = n + 1 /\ evaluator_calls tr = n + 1)).
Proof.
  unfold evaluator_optimizer. cbv zeta.
  split; [apply loop_calls|]. split; [apply loop_calls|]. split.
  - apply loop_first_pass.
  - apply loop_no_failure.
Qed.

End Facts.

End EvaluatorOptimizerFacts.

(** ** The executors on concrete agents *)

Lemma parallel_workflow_order_witness :
  Parallel.parallel_workflow reviewers labelled
    ["style_enforcer"; "proofreader"; "fact_checker"] "text"
  = (Parallel.Success
       ("quality_grader on "
        ++ labelled [("proofreader", "proofreader on text");
                     ("fact_checker", "fact_checker on text");
                     ("style_enforcer", "style_enforcer on text")]),
     [labelled [("proofreader", "proofreader on text");
                ("fact_checker", "fact_checker on text");
                ("style_enforcer", "style_enforcer on text")]])
  /\ Parallel.parallel_workflow fact_checker_down labelled
       ["style_enforcer"; "proofreader"; "fact_checker"] "text"
     = (Parallel.Failure "fact_checker" "timeout", []).
Proof.
  assert (Hperm : Permutation ["style_enforcer"; "proofreader"; "fact_checker"]
                    Parallel.fan_out).
  { apply (perm_trans (perm_swap "proofreader" "style_enforcer"
                         ["fact_checker"])).
    apply perm_skip. apply perm_swap. }
  split.
  - apply (proj1 (ParallelFacts.parallel_workflow_order reviewers labelled
                    "text" _ Hperm)
             "proofreader on text" "fact_checker on text"
             "style_enforcer on text" eq_refl eq_refl eq_refl).
  - destruct (proj2 (ParallelFacts.parallel_workflow_order fact_checker_down
                       labelled "text" _ Hperm)) as (a & e & Ha & He & Hrun).
    + exists "fact_checker", "timeout". split; [|reflexivity].
      right. left. reflexivity.
    + rewrite Hrun.
      destruct Ha as [<- | [<- | [<- | []]]]; try discriminate He.
      injection He as <-. reflexivity.
Defined.

Lemma router_workflow_one_call_witness :
  Router.router_workflow reviewers classify_nobody "hi"
  = (Ok "code_analyst on hi", [("code_analyst", "hi")]).
Proof.
  destruct (RouterFacts.router_workflow_one_call reviewers classify_nobody
              "hi") as (a & Hrun & _ & _ & Hno).
  rewrite Hrun, Hno.
  - reflexivity.
  - intros [H | [H | [H | []]]]; discriminate H.
Defined.

Lemma evaluator_optimizer_calls_witness :
  fst (EvaluatorOptimizer.evaluator_optimizer draft strict fold_append
         EvaluatorOptimizer.EXCELLENT 3 "x")
  = EvaluatorOptimizer.Success "draft: x / tighten it"
      EvaluatorOptimizer.EXCELLENT
  /\ EvaluatorOptimizer.generator_calls
       (snd (EvaluatorOptimizer.evaluator_optimizer_workflow draft
               always_fair fold_append "x")) = 4.
Proof.
  split.
  - apply (proj1 (proj2 (proj2
             (EvaluatorOptimizerFacts.evaluator_optimizer_calls draft strict
                fold_append EvaluatorOptimizer.EXCELLENT "x" 3)))
             [EvaluatorOptimizer.Gen "x" (Ok "draft: x");
              EvaluatorOptimizer.Eval "draft: x"
                (Ok (EvaluatorOptimizer.FAIR, "tighten it"));
              EvaluatorOptimizer.Gen "x / tighten it"
                (Ok "draft: x / tighten it")]
             "draft: x / tighten it" EvaluatorOptimizer.EXCELLENT "" []
             eq_refl eq_refl).
  - destruct (proj2 (proj2 (proj2
               (EvaluatorOptimizerFacts.evaluator_optimizer_calls draft
                  always_fair fold_append EvaluatorOptimizer.EXCELLENT "x"
                  3))) eq_refl)
      as (pre & i & c & r & fb & _ & Hout & Hcount).
    injection Hout as _ <-.
    apply (Hcount eq_refl).
Defined.

(** The declared loop stops at the first EXCELLENT rating. *)
Example evaluator_optimizer_stops :
  snd (EvaluatorOptimizer.evaluator_optimizer_workflow draft strict
         fold_append "x")
  = [EvaluatorOptimizer.Gen "x" (Ok "draft: x");
     EvaluatorOptimizer.Eval "draft: x"
       (Ok (EvaluatorOptimizer.FAIR, "tighten it"));
     EvaluatorOptimizer.Gen "x / tighten it" (Ok "draft: x / tighten it");
     EvaluatorOptimizer.Eval "draft: x / tighten it"
       (Ok (EvaluatorOptimizer.EXCELLENT, ""))].
Proof. reflexivity. Qed.

(** * More of the server and the client *)

(** ** Stripping *)

Section StripFacts.

Lemma lstrip_idem s : lstrip (lstrip s) = lstrip s.
Proof.
  induction s as [|c s IH]; [reflexivity|].
  simpl. destruct (is_space c) eqn:E; [exact IH|].
  simpl. now rewrite E.
Qed.

Lemma rstrip_idem s : rstrip (rstrip s) = rstrip s.
Proof.
  induction s as [|c s IH]; [reflexivity|].
  simpl. destruct (is_space c && is_empty (rstrip s)) eqn:E; [reflexivity|].
  simpl. now rewrite IH, E.
Qed.

Lemma lstrip_rstrip s : lstrip (rstrip s) = rstrip (lstrip s).
Proof.
  induction s as [|c s IH]; [reflexivity|].
  simpl. destruct (is_space c) eqn:E; simpl.
  - destruct (is_empty (rstrip s)) eqn:Er.
    + simpl. rewrite <- IH. destruct (rstrip s); [reflexivity|discriminate].
    + simpl. now rewrite E.
  - now rewrite E.
Qed.

Lemma strip_idem s : strip (strip s) = strip s.
Proof.
  unfold strip.
  now rewrite lstrip_rstrip, rstrip_idem, lstrip_idem.
Qed.

Lemma strip_rstrip s : strip (rstrip s) = strip s.
Proof.
  unfold strip. now rewrite lstrip_rstrip, rstrip_idem.
Qed.

Lemma rstrip_app_visible a c b :
  is_space c = false -> rstrip (a ++ String c b) = a ++ String c (rstrip b).
Proof.
  intros Hc. induction a as [|d a IH]; simpl.
  - now rewrite Hc.
  - rewrite IH. destruct (a ++ String c (rstrip b)) eqn:E.
    + destruct a; discriminate E.
    + now rewrite andb_false_r.
Qed.

Lemma blank_strip s : strip s = "" -> blank s = true.
Proof.
  unfold strip. induction s as [|c s IH]; [reflexivity|].
  simpl. destruct (is_space c) eqn:E; [exact IH|].
  simpl. rewrite E. discriminate.
Qed.

End StripFacts.

(** ** [execute], request by request *)

Section ExecuteFacts.

Variable fast : FastAgent.

Lemma agents_app_effect (s : Executor) :
  let s1 := snd (_agents_app fast s) in
  events s1 = events s /\ calls s1 = calls s /\ closed s1 = closed s
  /\ runs s <= runs s1 <= S (runs s)
  /\ (_agents s <> None -> s1 = s).
Proof.
  unfold _agents_app, bind, enter_async_context.
  destruct (_agents s) as [app|] eqn:Ha; cbn.
  - repeat split; auto.
  - destruct (run_enter fast (runs s)); cbn;
      repeat split; auto; intros H; now destruct H.
Qed.

Lemma workflow_state (w : string) (s : Executor) :
  snd (_workflow fast w s) = snd (_agents_app fast s).
Proof.
  unfold _workflow, bind.
  destruct (_agents_app fast s) as [[app|e] s1]; [|reflexivity].
  unfold dict_mem, dict_item, next_iter_values.
  destruct (dict_get w (app_agents app)); [reflexivity|].
  destruct (app_agents app) as [|[k v] rest]; reflexivity.
Qed.

Lemma run_workflow_cases (w u : string) (s : Executor) :
  let s1 := snd (_agents_app fast s) in
  (exists text,
      fst (run_workflow fast w u s) = Ok tt
      /\ (snd (run_workflow fast w u s) = add_event text s1
          \/ exists a,
              snd (run_workflow fast w u s)
              = add_event text (add_call a u s1)))
  \/ (exists e,
      fst (run_workflow fast w u s) = Raise (BaseException e)
      /\ (snd (run_workflow fast w u s) = s1
          \/ exists a, snd (run_workflow fast w u s) = add_call a u s1)).
Proof.
  cbv zeta. rewrite <- (workflow_state w s).
  unfold run_workflow, try_except, bind, agent_send, enqueue_event.
  destruct (_workflow fast w s) as [[agent|[e|e]] s1]; cbn.
  - destruct (send agent u) as [r|[e|e]]; cbn.
    + left. eexists. split; [reflexivity|]. right. eexists. reflexivity.
    + left. eexists. split; [reflexivity|]. right. eexists. reflexivity.
    + right. eexists. split; [reflexivity|]. right. eexists. reflexivity.
  - left. eexists. split; [reflexivity|]. now left.
  - right. eexists. split; [reflexivity|]. now left.
Qed.

(** Apart from the event queue and the call log, the [try] block leaves the
    state as [_agents_app] leaves it. *)
Lemma run_workflow_fields (w u : string) (s : Executor) :
  let s1 := snd (_agents_app fast s) in
  let s' := snd (run_workflow fast w u s) in
  _agents s' = _agents s1 /\ _stack s' = _stack s1
  /\ runs s' = runs s1 /\ closed s' = closed s1.
Proof.
  cbv zeta.
  destruct (run_workflow_cases w u s)
    as [(text & _ & [-> | [a ->]]) | (e & _ & [-> | [a ->]])];
    repeat split.
Qed.

Lemma route_stripped (m w u : string) (s : Executor) :
  strip m = m -> route m s = (Ok (w, u), s) -> strip u = u.
Proof.
  intros Hm. unfold route.
  destruct (contains "|" m && startswith "workflow:" m) eqn:E.
  - apply andb_true_iff in E as [Hbar _]. unfold contains in Hbar.
    unfold split1. destruct (find "|" m); [|discriminate].
    cbn. intros [= _ <-]. apply strip_idem.
  - cbn. now intros [= _ <-].
Qed.

Lemma execute_full (wf msg : string) (s : Executor) :
  contains "|" wf = false ->
  find "workflow:" wf = None ->
  execute fast ("workflow:" ++ wf ++ "|" ++ msg) s
  = run_workflow fast (strip wf) (strip msg) s.
Proof.
  intros Hbar Hwf.
  assert (Hs : strip ("workflow:" ++ wf ++ "|" ++ msg)
               = "workflow:" ++ wf ++ "|" ++ rstrip msg).
  { unfold strip.
    change (lstrip ("workflow:" ++ wf ++ "|" ++ msg))
      with (("workflow:" ++ wf) ++ String "|" msg).
    now rewrite rstrip_app_visible. }
  apply execute_nonblank.
  - now rewrite Hs.
  - rewrite Hs, <- (strip_rstrip msg). apply route_form; [|exact Hwf].
    split; [reflexivity | exact Hbar].
Qed.

(** X1.  Whitespace around the user input never matters. *)
Theorem execute_strip_invariant (raw : string) (s : Executor) :
  execute fast raw s = execute fast (strip raw) s.
Proof.
  unfold execute. now rewrite strip_idem.
Qed.

(** X2.  A request whose input is not blank never raises an [Exception].
    When it returns it has enqueued exactly one event, after those already
    queued; when an exception that is no [Exception] leaves it, it has
    enqueued nothing.  Either way it makes at most one [send] call, whose
    message is stripped; it closes no runtime, enters at most one, and
    enters none and leaves the executor's fields alone when a runtime is
    already up. *)
Theorem execute_one_event (raw : string) (s : Executor) :
  is_empty (strip raw) = false ->
  let s' := snd (execute fast raw s) in
  match fst (execute fast raw s) with
  | Ok _ => exists text, events s' = (events s ++ [text])%list
  | Raise (Exception _) => False
  | Raise (BaseException _) => events s' = events s
  end
  /\ (calls s' = calls s
      \/ exists a u, calls s' = (calls s ++ [(a, u)])%list /\ strip u = u)
  /\ closed s' = closed s
  /\ runs s <= runs s' <= S (runs s)
  /\ (_agents s <> None ->
      _agents s' = _agents s /\ _stack s' = _stack s /\ runs s' = runs s).
Proof.
  intros Hne. destruct (route_total (strip raw) s) as (w & u & Hr).
  pose proof (route_stripped _ _ _ _ (strip_idem raw) Hr) as Hu.
  rewrite (execute_nonblank fast raw w u s Hne Hr). cbv zeta.
  destruct (agents_app_effect s) as (He & Hc & Hcl & Hruns & Hsame).
  destruct (run_workflow_cases w u s)
    as [(text & -> & [-> | [a ->]]) | (e & -> & [-> | [a ->]])]; cbn;
    rewrite ?He, ?Hc, ?Hcl.
  - split; [eauto|]. split; [now left|].
    split; [reflexivity|]. split; [exact Hruns|].
    intros H. now rewrite (Hsame H).
  - split; [eauto|]. split; [right; eauto|].
    split; [reflexivity|]. split; [exact Hruns|].
    intros H. now rewrite (Hsame H).
  - split; [reflexivity|]. split; [now left|].
    split; [reflexivity|]. split; [exact Hruns|].
    intros H. now rewrite (Hsame H).
  - split; [reflexivity|]. split; [right; eauto|].
    split; [reflexivity|]. split; [exact Hruns|].
    intros H. now rewrite (Hsame H).
Qed.

End ExecuteFacts.

(** ** The runtime over the life of the executor *)

Section RuntimeFacts.

Variable fast : FastAgent.
Variable agent_card_of : AgentProtocol -> result AgentCard.
Variable serve : AgentCard -> M unit.

Lemma agents_app_single (s : Executor) :
  single_runtime s -> single_runtime (snd (_agents_app fast s)).
Proof.
  unfold single_runtime, _agents_app, bind, enter_async_context.
  destruct (_agents s) as [app|] eqn:Ha; cbn.
  - now rewrite Ha.
  - intros Hst. destruct (run_enter fast (runs s)); cbn; now rewrite ?Hst, ?Ha.
Qed.

Lemma agent_card_state (n : option string) (s : Executor) :
  snd (agent_card fast agent_card_of n s) = snd (_agents_app fast s).
Proof.
  unfold agent_card, bind.
  rewrite <- (workflow_state fast
                (match n with
                 | Some n0 => if is_empty n0 then "router_workflow" else n0
                 | None => "router_workflow"
                 end) s).
  destruct (_workflow fast _ s) as [[a|e] s1]; reflexivity.
Qed.

(** X3.  [shutdown] leaves every context of the exit stack, last entered
    first, whether or not some exits raise, and empties the stack; it
    touches neither the event queue nor the call log; it returns when every
    exit returned and raises otherwise. *)
Theorem shutdown_closes_all (s : Executor) :
  let s1 := snd (shutdown fast s) in
  _stack s1 = []
  /\ closed s1 = (closed s ++ _stack s)%list
  /\ events s1 = events s /\ calls s1 = calls s /\ runs s1 = runs s
  /\ if forallb (fun k => match run_exit fast k with
                          | Ok _ => true
                          | Raise _ => false
                          end) (_stack s)
     then fst (shutdown fast s) = Ok tt /\ _agents s1 = None
     else (exists e, fst (shutdown fast s) = Raise e)
          /\ _agents s1 = _agents s.
Proof.
  exact (shutdown_outcome fast s).
Qed.

(** X4.  Used by one request after the other, the executor holds at most
    one runtime: on a fresh executor the exit stack is empty, and
    [execute], [cancel], [agent_card] and a [shutdown] that returns all
    keep the exit stack equal to the runtime of [self._agents], or empty
    when there is none. *)
Theorem single_runtime_kept :
  single_runtime init
  /\ forall s,
      single_runtime s ->
      (forall raw, single_runtime (snd (execute fast raw s)))
      /\ single_runtime (snd (cancel s))
      /\ (forall n, single_runtime (snd (agent_card fast agent_card_of n s)))
      /\ (fst (shutdown fast s) = Ok tt ->
          single_runtime (snd (shutdown fast s))).
Proof.
  split; [reflexivity|]. intros s Hs. split; [|split; [|split]].
  - intros raw. unfold execute.
    destruct (is_empty (strip raw)); [exact Hs|].
    destruct (route_total (strip raw) s) as (w & u & Hr).
    unfold bind. rewrite Hr. cbn [fst snd].
    pose proof (agents_app_single s Hs) as H1.
    destruct (run_workflow_fields fast w u s) as (Ha & Hst & _ & _).
    unfold single_runtime in *. now rewrite Ha, Hst.
  - exact Hs.
  - intros n. rewrite agent_card_state. now apply agents_app_single.
  - intros Hok.
    destruct (shutdown_outcome fast s) as (Hst & _ & _ & _ & _ & Hres).
    destruct (forallb _ (_stack s)).
    + destruct Hres as [_ Ha]. unfold single_runtime. now rewrite Ha.
    + destruct Hres as [[e He] _]. congruence.
Qed.

(** X5.  A [shutdown] that raises does not clear [self._agents]: the exit
    stack is empty, yet [_workflow] keeps answering from the app of the
    runtime just left, and no later request enters a new runtime. *)
Theorem shutdown_raise_keeps_agents (s : Executor) (app : AgentApp)
  (e : exn) :
  _agents s = Some app ->
  fst (shutdown fast s) = Raise e ->
  let s1 := snd (shutdown fast s) in
  _agents s1 = Some app /\ _stack s1 = []
  /\ _agents_app fast s1 = (Ok app, s1)
  /\ forall raw,
      runs (snd (execute fast raw s1)) = runs s
      /\ _stack (snd (execute fast raw s1)) = [].
Proof.
  intros Ha He.
  destruct (shutdown_outcome fast s) as (Hst & _ & _ & _ & Hruns & Hres).
  cbv zeta in *.
  destruct (forallb _ (_stack s)).
  - destruct Hres as [Hok _]. congruence.
  - destruct Hres as [_ Hkeep]. rewrite Ha in Hkeep.
    set (s1 := snd (shutdown fast s)) in *.
    assert (Happ : _agents_app fast s1 = (Ok app, s1)).
    { unfold _agents_app. now rewrite Hkeep. }
    split; [exact Hkeep|]. split; [exact Hst|]. split; [exact Happ|].
    intros raw. unfold execute.
    destruct (is_empty (strip raw)); [now split|].
    destruct (route_total (strip raw) s1) as (w & u & Hr).
    unfold bind. rewrite Hr. cbn [fst snd].
    destruct (run_workflow_fields fast w u s1) as (_ & Hst2 & Hr2 & _).
    rewrite Hst2, Hr2, Happ. cbn. now split.
Qed.

(** X6.  With the runtime up and "router_workflow" registered,
    [agent_card] answers with the router's card when no name is given,
    when the name is empty and when the name is not registered. *)
Theorem agent_card_default (s s1 : Executor) (app : AgentApp)
  (router : AgentProtocol) :
  _agents_app fast s = (Ok app, s1) ->
  dict_get "router_workflow" (app_agents app) = Some router ->
  agent_card fast agent_card_of None s = (agent_card_of router, s1)
  /\ agent_card fast agent_card_of (Some "") s = (agent_card_of router, s1)
  /\ forall n,
      dict_get n (app_agents app) = None ->
      agent_card fast agent_card_of (Some n) s = (agent_card_of router, s1).
Proof.
  intros Happ Hr.
  assert (Hw : _workflow fast "router_workflow" s = (Ok router, s1)).
  { unfold _workflow, bind, dict_mem, dict_item. now rewrite Happ, Hr. }
  split; [|split].
  - unfold agent_card, bind. now rewrite Hw.
  - unfold agent_card, bind. cbn [is_empty]. now rewrite Hw.
  - intros n Hn. unfold agent_card, bind.
    assert (Hn' : _workflow fast n s = (Ok router, s1)).
    { unfold _workflow, bind, dict_mem, next_iter_values.
      rewrite Happ, Hn, Hr.
      destruct (app_agents app) as [|[k v] rest]; [discriminate Hr|].
      reflexivity. }
    destruct (is_empty n) eqn:En.
    + now rewrite Hw.
    + now rewrite Hn'.
Qed.

(** X7.  When fetching the card at startup raises, [main] raises the same
    exception without serving and without calling [shutdown]: a runtime
    entered by the fetch stays on the exit stack and is not closed. *)
Theorem main_startup_failure (s s1 : Executor) (e : exn) :
  agent_card fast agent_card_of None s = (Raise e, s1) ->
  main fast agent_card_of serve s = (Raise e, s1)
  /\ closed s1 = closed s
  /\ forall m,
      _agents s = None -> run_enter fast (runs s) = Ok m ->
      _stack s1 = runs s :: _stack s.
Proof.
  intros H. split; [|split].
  - unfold main, bind. now rewrite H.
  - pose proof (agent_card_state None s) as Hs. rewrite H in Hs.
    cbn in Hs. subst s1. apply agents_app_effect.
  - intros m Ha Hm.
    pose proof (agent_card_state None s) as Hs. rewrite H in Hs.
    cbn in Hs. subst s1.
    unfold _agents_app, bind, enter_async_context. now rewrite Ha, Hm.
Qed.


Lemma agents_app_fresh (s : Executor) :
  fresh_ids s -> fresh_ids (snd (_agents_app fast s)).
Proof.
  unfold fresh_ids, _agents_app, bind, enter_async_context. intros H.
  destruct (_agents s); [exact H|].
  destruct (run_enter fast (runs s)); cbn; intros k Hk.
  - destruct Hk as [[<- | Hk] | Hk]; [lia | |];
      (assert (k < runs s) by (apply H; auto); lia).
  - assert (k < runs s) by (apply H; auto). lia.
Qed.

(** X13.  The executor can be used again after a [shutdown] that returned:
    the next request with a non-blank input enters a new runtime, whose id
    is that of no runtime entered before, and [self._agents] is the app of
    that runtime. *)
Theorem executor_restarts (s : Executor) (raw : string)
  (m : list (string * AgentProtocol)) :
  fresh_ids s ->
  fst (shutdown fast s) = Ok tt ->
  is_empty (strip raw) = false ->
  run_enter fast (runs s) = Ok m ->
  let s2 := snd (execute fast raw (snd (shutdown fast s))) in
  _agents s2 = Some {| runtime_id := runs s; app_agents := m |}
  /\ _stack s2 = [runs s]
  /\ ~ In (runs s) (closed s2)
  /\ fresh_ids s2.
Proof.
  intros Hfresh Hok Hne Hm.
  destruct (shutdown_outcome fast s) as (Hst & Hcl & _ & _ & Hruns & Hres).
  cbv zeta in *.
  destruct (forallb _ (_stack s));
    [|destruct Hres as [[e He] _]; congruence].
  destruct Hres as [_ Hnone].
  set (s1 := snd (shutdown fast s)) in *.
  assert (Hf1 : fresh_ids s1).
  { intros k Hk. rewrite Hruns. apply Hfresh.
    rewrite Hst, Hcl in Hk. destruct Hk as [[] | Hk].
    apply in_app_or in Hk. tauto. }
  assert (Happ : _agents_app fast s1
                 = (Ok {| runtime_id := runs s; app_agents := m |},
                    set_agents (Some {| runtime_id := runs s;
                                        app_agents := m |})
                      (set_stack [runs s] (set_runs (S (runs s)) s1)))).
  { unfold _agents_app, bind, enter_async_context.
    now rewrite Hnone, Hruns, Hm, Hst. }
  pose proof (agents_app_fresh s1 Hf1) as Hf2.
  destruct (route_total (strip raw) s1) as (w & u & Hr).
  rewrite (execute_nonblank fast raw w u s1 Hne Hr).
  assert (Hclosed : ~ In (runs s) (closed s1)).
  { intros Hin. assert (runs s < runs s1) by (apply Hf1; auto). lia. }
  destruct (run_workflow_fields fast w u s1) as (Ha2 & Hst2 & Hr2 & Hc2).
  rewrite Happ in *. cbn in Ha2, Hst2, Hr2, Hc2, Hf2.
  split; [exact Ha2|]. split; [exact Hst2|]. split; [now rewrite Hc2|].
  intros k. rewrite Hst2, Hc2, Hr2. apply Hf2.
Qed.

End RuntimeFacts.

(** ** The client, and the client against the server *)

Module ClientFacts.
Import PyInt Client.

Section Facts.

Variable fast : FastAgent.
Variable post : Payload -> Http.

(** X9.  [send_message] posts one "execute" payload whose message is
    workflow:<workflow>|<message>.  Given to the server's [execute] as the
    user input, that text runs the named workflow on the stripped message,
    provided the workflow name holds neither a bar nor "workflow:"; a
    blank message is not dropped by the server's guard: the agent is sent
    the empty string. *)
Theorem send_message_round_trip (message workflow : string) (w : World)
  (s : Executor) :
  contains "|" workflow = false ->
  find "workflow:" workflow = None ->
  (exists p,
      sent (snd (send_message post message workflow w))
      = (sent w ++ [p])%list
      /\ method p = "execute"
      /\ params p = [("message", full_message message workflow)])
  /\ execute fast (full_message message workflow) s
     = run_workflow fast (strip workflow) (strip message) s
  /\ (blank message = true ->
      execute fast (full_message message workflow) s
      = run_workflow fast (strip workflow) "" s).
Proof.
  intros Hbar Hwf. split; [|split].
  - unfold send_message, call. cbn. eexists. repeat split.
  - now apply execute_full.
  - intros Hb. unfold full_message. rewrite execute_full by assumption.
    now rewrite (strip_blank message Hb).
Qed.



Lemma py_index_in {A} (l : list A) (i : Z) (x : A) :
  py_index l i = Some x -> In x l.
Proof.
  unfold py_index.
  destruct (0 <=? i)%Z.
  - apply nth_error_In.
  - destruct (- Z.of_nat (List.length l) <=? i)%Z; [|discriminate].
    apply nth_error_In.
Qed.

(** X11.  The menu of [interactive] never fails: whatever is typed, the
    workflow chosen is one of the six.  A blank line chooses
    "router_workflow"; a number from 1 to 6 chooses the entry at that
    place; a number from -5 to 0 chooses an entry counted from the end, so
    that 0 chooses "human_input_workflow"; any other number, and anything
    that is not a number, chooses "router_workflow". *)
Theorem select_workflow_menu (typed : string) :
  In (select_workflow typed) workflows
  /\ (blank typed = true -> select_workflow typed = "router_workflow")
  /\ (is_empty (strip typed) = false -> py_int (strip typed) = None ->
      select_workflow typed = "router_workflow")
  /\ forall n,
      is_empty (strip typed) = false -> py_int (strip typed) = Some n ->
      ((1 <= n <= 6)%Z ->
       nth_error workflows (Z.to_nat (n - 1)) = Some (select_workflow typed))
      /\ ((-5 <= n <= 0)%Z ->
          nth_error workflows (Z.to_nat (n + 5))
          = Some (select_workflow typed))
      /\ ((n < -5 \/ 6 < n)%Z -> select_workflow typed = "router_workflow").
Proof.
  split; [|split; [|split]].
  - unfold select_workflow.
    destruct (py_int _) as [n|]; [|now left].
    destruct (py_index workflows (n - 1)) as [wf|] eqn:E; [|now left].
    now apply py_index_in in E.
  - intros Hb. unfold select_workflow. now rewrite (strip_blank typed Hb).
  - intros Hne Hint. unfold select_workflow. now rewrite Hne, Hint.
  - intros n Hne Hint. unfold select_workflow. rewrite Hne, Hint.
    split; [|split].
    + intros Hn.
      assert (Hc : (n = 1 \/ n = 2 \/ n = 3 \/ n = 4 \/ n = 5 \/ n = 6)%Z)
        by lia.
      destruct Hc as [-> | [-> | [-> | [-> | [-> | ->]]]]]; reflexivity.
    + intros Hn.
      assert (Hc : (n = -5 \/ n = -4 \/ n = -3 \/ n = -2 \/ n = -1
                    \/ n = 0)%Z) by lia.
      destruct Hc as [-> | [-> | [-> | [-> | [-> | ->]]]]]; reflexivity.
    + intros Hn. unfold py_index.
      change (Z.of_nat (List.length workflows)) with 6%Z.
      destruct (0 <=? n - 1)%Z eqn:E0.
      * apply Z.leb_le in E0.
        assert (Hnone : nth_error workflows (Z.to_nat (n - 1)) = None).
        { apply nth_error_None. cbn [List.length workflows]. lia. }
        now rewrite Hnone.
      * apply Z.leb_gt in E0.
        destruct (- (6) <=? n - 1)%Z eqn:E1; [|reflexivity].
        apply Z.leb_le in E1. lia.
Qed.

Lemma dict_get_keys (k : string) (d : list (string * AgentProtocol)) :
  dict_mem k d = true <-> In k (map fst d).
Proof.
  unfold dict_mem. induction d as [|[k' v] d IH]; cbn.
  - split; [discriminate | intros []].
  - destruct (String.eqb k k') eqn:E.
    + apply String.eqb_eq in E. subst k'. split; auto.
    + apply String.eqb_neq in E. rewrite IH. split; [now right|].
      intros [H | H]; [congruence | exact H].
Qed.

(** X12.  Against a server whose registry holds exactly the names the
    server source declares, five of the six menu entries of the client are
    resolved to the agent of that name; "human_input_workflow" is not
    declared, and a request for it is resolved to "router_workflow". *)
Theorem menu_resolution (s s1 : Executor) (app : AgentApp) :
  _agents_app fast s = (Ok app, s1) ->
  (forall k, In k (map fst (app_agents app)) <-> In k declared) ->
  forall wf,
    In wf workflows ->
    exists a,
      _workflow fast wf s = (Ok a, s1)
      /\ dict_get (if String.eqb wf "human_input_workflow"
                   then "router_workflow" else wf) (app_agents app)
         = Some a.
Proof.
  intros Happ Hkeys wf Hwf.
  assert (Hreg : forall k, In k declared ->
                 exists a, dict_get k (app_agents app) = Some a).
  { intros k Hk. apply Hkeys, dict_get_keys in Hk. unfold dict_mem in Hk.
    destruct (dict_get k (app_agents app)) as [a|]; [eauto | discriminate]. }
  assert (Hhit : forall k a, dict_get k (app_agents app) = Some a ->
                 _workflow fast k s = (Ok a, s1)).
  { intros k a Hk. unfold _workflow, bind, dict_mem, dict_item.
    now rewrite Happ, Hk. }
  assert (Hin : forall k, existsb (String.eqb k) declared = true ->
                In k declared).
  { intros k Hk. apply existsb_exists in Hk as (k' & Hk' & E).
    apply String.eqb_eq in E. now subst k'. }
  cbn in Hwf.
  destruct Hwf as [<- | [<- | [<- | [<- | [<- | [<- | []]]]]]]; cbn [String.eqb].
  1-5: match goal with
       | |- exists a, _workflow _ ?k _ = _ /\ _ =>
           destruct (Hreg k (Hin k eq_refl)) as [a Ha]; exists a;
           split; [now apply Hhit | exact Ha]
       end.
  destruct (Hreg "router_workflow" (Hin "router_workflow" eq_refl))
    as [r Hr].
  exists r. split; [|exact Hr].
  assert (Hmiss : dict_get "human_input_workflow" (app_agents app) = None).
  { destruct (dict_get "human_input_workflow" (app_agents app)) eqn:E;
      [|reflexivity].
    assert (Hm : dict_mem "human_input_workflow" (app_agents app) = true)
      by (unfold dict_mem; now rewrite E).
    apply dict_get_keys, Hkeys in Hm. cbn in Hm.
    repeat (destruct Hm as [Hm | Hm]; [discriminate Hm|]). destruct Hm. }
  unfold _workflow, bind, dict_mem, next_iter_values.
  rewrite Happ, Hmiss, Hr.
  destruct (app_agents app) as [|[k v] rest]; [discriminate Hr|].
  reflexivity.
Qed.

End Facts.

End ClientFacts.

(** ** The server and the client on concrete worlds *)

Lemma execute_one_event_witness :
  events (snd (execute fast_up "  hello " init)) = ["router_workflow got hello"]
  /\ runs (snd (execute fast_up "  hello " init)) <= 1.
Proof.
  destruct (execute_one_event fast_up "  hello " init eq_refl)
    as ([text Hev] & _ & _ & Hruns & _).
  split; [reflexivity | exact (proj2 Hruns)].
Defined.

Lemma single_runtime_kept_witness :
  single_runtime (snd (execute fast_up "hello" init))
  /\ single_runtime
       (snd (shutdown fast_up (snd (execute fast_up "hello" init)))).
Proof.
  destruct (single_runtime_kept fast_up card_of) as [H0 Hkeep].
  destruct (Hkeep init H0) as (Hex & _ & _ & _).
  split; [apply Hex|].
  destruct (Hkeep (snd (execute fast_up "hello" init)) (Hex "hello"))
    as (_ & _ & _ & Hsh).
  apply Hsh. reflexivity.
Defined.

Lemma shutdown_raise_keeps_agents_witness :
  _agents (snd (shutdown fast_exit_fails
                  (snd (_agents_app fast_exit_fails init))))
  = Some {| runtime_id := 0; app_agents := workflows |}
  /\ runs (snd (execute fast_exit_fails "hello"
                  (snd (shutdown fast_exit_fails
                          (snd (_agents_app fast_exit_fails init)))))) = 1.
Proof.
  destruct (shutdown_raise_keeps_agents fast_exit_fails
              (snd (_agents_app fast_exit_fails init))
              {| runtime_id := 0; app_agents := workflows |}
              "exit failed" eq_refl eq_refl) as (Ha & _ & _ & Hex).
  split; [exact Ha | exact (proj1 (Hex "hello"))].
Defined.

Lemma agent_card_default_witness :
  agent_card fast_up card_of (Some "human_input_workflow") init
  = agent_card fast_up card_of None init.
Proof.
  destruct (agent_card_default fast_up card_of init
              (snd (_agents_app fast_up init))
              {| runtime_id := 0; app_agents := workflows |}
              (echo "router_workflow") eq_refl eq_refl)
    as (Hnone & _ & Hmiss).
  rewrite Hnone. apply Hmiss. reflexivity.
Defined.

Lemma main_startup_failure_witness :
  main fast_empty card_of serve_hello init
  = (Raise "coroutine raised StopIteration",
     snd (_agents_app fast_empty init))
  /\ _stack (snd (main fast_empty card_of serve_hello init)) = [0]
  /\ closed (snd (main fast_empty card_of serve_hello init)) = [].
Proof.
  destruct (main_startup_failure fast_empty card_of serve_hello init
              (snd (_agents_app fast_empty init))
              "coroutine raised StopIteration" eq_refl)
    as (Hmain & Hclosed & Hstack).
  rewrite Hmain. split; [reflexivity|]. split.
  - exact (Hstack [] eq_refl eq_refl).
  - exact Hclosed.
Defined.


Lemma send_message_round_trip_witness :
  execute fast_up
    (Client.full_message " a|b " "chaining_workflow") init
  = run_workflow fast_up "chaining_workflow" "a|b" init
  /\ calls (snd (execute fast_up
                   (Client.full_message "  " "chaining_workflow") init))
     = [("chaining_workflow", "")].
Proof.
  destruct (ClientFacts.send_message_round_trip fast_up post_ok " a|b "
              "chaining_workflow"
              {| Client.client := Client.new_client "http://localhost:9999" 30;
                 Client.sent := [] |} init eq_refl eq_refl)
    as (_ & Hrun & _).
  destruct (ClientFacts.send_message_round_trip fast_up post_ok "  "
              "chaining_workflow"
              {| Client.client := Client.new_client "http://localhost:9999" 30;
                 Client.sent := [] |} init eq_refl eq_refl)
    as (_ & _ & Hblank).
  split; [exact Hrun|]. rewrite (Hblank eq_refl). reflexivity.
Defined.

Lemma select_workflow_menu_witness :
  Client.select_workflow " 3 " = "parallel_workflow"
  /\ Client.select_workflow "0" = "human_input_workflow"
  /\ Client.select_workflow "7" = "router_workflow"
  /\ Client.select_workflow "two" = "router_workflow"
  /\ Client.select_workflow "  " = "router_workflow".
Proof.
  destruct (ClientFacts.select_workflow_menu " 3 ") as (_ & _ & _ & H3).
  destruct (H3 3%Z eq_refl eq_refl) as (Hin & _ & _).
  destruct (ClientFacts.select_workflow_menu "0") as (_ & _ & _ & H0).
  destruct (H0 0%Z eq_refl eq_refl) as (_ & Hwrap & _).
  destruct (ClientFacts.select_workflow_menu "7") as (_ & _ & _ & H7).
  destruct (H7 7%Z eq_refl eq_refl) as (_ & _ & Hout).
  destruct (ClientFacts.select_workflow_menu "two") as (_ & _ & Hnan & _).
  destruct (ClientFacts.select_workflow_menu "  ") as (_ & Hblank & _).
  split; [|split; [|split; [|split]]].
  - specialize (Hin ltac:(lia)).
    change (Some "parallel_workflow" = Some (Client.select_workflow " 3 "))
      in Hin.
    congruence.
  - specialize (Hwrap ltac:(lia)).
    change (Some "human_input_workflow" = Some (Client.select_workflow "0"))
      in Hwrap.
    congruence.
  - apply Hout. lia.
  - apply Hnan; reflexivity.
  - apply Hblank. reflexivity.
Defined.

Lemma menu_resolution_witness :
  calls (snd (execute fast_declared
                (Client.full_message "hi" "human_input_workflow") init))
  = [("router_workflow", "hi")].
Proof.
  destruct (ClientFacts.menu_resolution fast_declared init
              (snd (_agents_app fast_declared init))
              {| runtime_id := 0;
                 app_agents := map (fun n => (n, echo n)) declared |}
              eq_refl) with (wf := "human_input_workflow")
    as (a & Hw & Ha).
  - intros k. split; intros H; exact H.
  - cbn. tauto.
  - cbn in Ha. injection Ha as <-. reflexivity.
Defined.

(** The card [main] serves. *)
Example served_card_url :
  url (served_card {| url := ""; preferred_transport := "";
                      additional_interfaces := [];
                      supports_authenticated_extended_card := true;
                      default_input_modes := []; default_output_modes := [];
                      other_fields := "router" |})
  = "http://localhost:9999/".
Proof. reflexivity. Qed.

(** Five requests from a fresh client carry the ids 1 to 5. *)
Example send_all_five :
  map Client.id
    (Client.sent
       (snd (Client.send_all post_ok
               [("router_workflow", "a"); ("chaining_workflow", "b");
                ("parallel_workflow", "c"); ("orchestrator_workflow", "d");
                ("evaluator_optimizer_workflow", "e")]
               {| Client.client := Client.new_client "http://localhost:9999" 30;
                  Client.sent := [] |})))
  = [1; 2; 3; 4; 5]%Z.
Proof. reflexivity. Qed.

(** A timeout becomes a text. *)
Example send_message_timeout :
  fst (Client.send_message (fun _ => Client.TimedOut) "hi" "router_workflow"
         {| Client.client := Client.new_client "http://localhost:9999" 30;
            Client.sent := [] |})
  = "Error: Request timeout after 30s".
Proof. reflexivity. Qed.

Lemma executor_restarts_witness :
  _stack (snd (execute fast_up "again"
                 (snd (shutdown fast_up (snd (execute fast_up "hello" init))))))
  = [1].
Proof.
  destruct (executor_restarts fast_up
              (snd (execute fast_up "hello" init)) "again" workflows)
    as (_ & Hstack & _).
  - intros k [[<- | []] | []]. apply Nat.lt_succ_diag_r.
  - reflexivity.
  - reflexivity.
  - reflexivity.
  - exact Hstack.
Defined.
